(** * Namespace period checker of the virtualcluster syncer

    A shallow embedding of
    [incubator/virtualcluster/pkg/syncer/resources/namespace/checker.go]
    and the properties of its consistency check between the super master
    (physical side) and the tenant masters (virtual side).

    The checker talks to the outside world only through its collaborators
    (informer cache lister, multi-cluster controller, namespace client, klog,
    metrics).  Every such call is recorded, in program order, in a trace of
    events; the functions of the checker are computations that read the
    trace so far and extend it. *)

From stdpp Require Import base option list strings gmap.

Open Scope string_scope.
Open Scope list_scope.

(** ** Data *)

(** [metav1.StatusReason], as far as [errors.IsNotFound] tells reasons
    apart. *)
Inductive StatusReason :=
| StatusReasonNotFound
| StatusReasonConflict
| StatusReasonInternalError
| StatusReasonTimeout
| StatusReasonUnknown.

(** A non-nil Go [error]: an API status error with its reason, or any other
    error (such as one made by [fmt.Errorf]).  A nil [error] is [None] of
    [option error]. *)
Inductive error :=
| StatusError (reason : StatusReason) (message : string)
| PlainError (message : string).

(** [errors.IsNotFound]: false on nil. *)
Definition IsNotFound (err : option error) : bool :=
  match err with
  | Some (StatusError StatusReasonNotFound _) => true
  | _ => false
  end.
Arguments IsNotFound : simpl never.

(** [v1.Namespace], with the metadata the checker reads.  Indexing a Go map
    at an absent key gives the zero value, here the empty string. *)
Record Namespace := {
  Name : string;
  UID : string;
  Annotations : gmap string string
}.

Global Instance Namespace_eq_dec : EqDecision Namespace.
Proof. solve_decision. Defined.

Definition annotation (ns : Namespace) (key : string) : string :=
  default "" (Annotations ns !! key).

(** [metav1.Preconditions] and [metav1.DeleteOptions]. *)
Record Preconditions := { PreconditionUID : option string }.

Definition NewUIDPreconditions (uid : string) : Preconditions :=
  {| PreconditionUID := Some uid |}.

Record DeleteOptions := {
  PropagationPolicy : option string;
  DeletePreconditions : option Preconditions
}.

(** ** Events *)

Inductive Severity := SevInfo | SevInfoV (level : nat) | SevWarning | SevError.

(** One constructor per klog call site, with the arguments of its format
    string. *)
Inductive LogMsg :=
| MsgNoClusters
    (* "tenant masters has no clusters, give up period checker" *)
| MsgListSuperErr (err : error)
    (* "error listing namespaces from super master informer cache: %v" *)
| MsgDelegatedUIDDiffers (pNamespace : string)
    (* "Found pNamespace %s delegated UID is different from tenant object." *)
| MsgDeleteErr (pNamespace : string) (err : error)
    (* "error deleting pNamespace %s in super master: %v" *)
| MsgListClusterErr (clusterName : string) (err : error)
    (* "error listing namespaces from cluster %s informer cache: %v" *)
| MsgCheckCluster (clusterName : string)
    (* "check namespaces consistency in cluster %s" *)
| MsgRequeueErr (vNamespace clusterName : string) (err : error)
    (* "error requeue vNamespace %s in cluster %s: %v" *)
| MsgGetSuperErr (targetNamespace : string) (err : error).
    (* "error getting pNamespace %s from super master cache: %v" *)

Inductive Event :=
| EvGetClusterNames
| EvListVirtual (clusterName : string)
| EvGetVirtual (clusterName namespace name : string)
| EvRequeueObject (clusterName : string) (obj : Namespace)
| EvListSuper
| EvGetSuper (name : string)
| EvDelete (name : string) (opts : DeleteOptions)
| EvLog (sev : Severity) (msg : LogMsg)
| EvCounterInc (label : string)
| EvRecordCheckerScanDuration (checker : string).

(** How many events of a trace satisfy [f]. *)
Definition tally (f : Event → bool) (t : list Event) : nat :=
  length (filter (λ e, f e = true) t).

Definition is_inc (label : string) (e : Event) : bool :=
  match e with
  | EvCounterInc l => bool_decide (l = label)
  | _ => false
  end.

(** The value of [metrics.CheckerRemedyStats] at [label] after a trace:
    the counter starts at zero and [Inc] is its only operation. *)
Definition CheckerRemedyStats (label : string) (t : list Event) : nat :=
  tally (is_inc label) t.

(** ** Collaborators *)

(** The tenant side, [c.multiClusterNamespaceController].  What the reads
    return is fixed for the time of a check; what [RequeueObject] answers may
    depend on everything that happened before the call. *)
Module MultiClusterController.
Record t := {
  GetClusterNames : list string;
  List : string → option (list Namespace) * option error;
  Get : string → string → string → option Namespace * option error;
  RequeueObject : list Event → string → Namespace → option error
}.
End MultiClusterController.

(** The super master informer cache, [c.nsLister]. *)
Module NamespaceLister.
Record t := {
  List : list Namespace * option error;
  Get : string → option Namespace * option error
}.
End NamespaceLister.

(** The super master client, [c.namespaceClient.Namespaces()]. *)
Module NamespaceInterface.
Record t := {
  Delete : list Event → string → DeleteOptions → option error
}.
End NamespaceInterface.

Record controller := {
  multiClusterNamespaceController : MultiClusterController.t;
  nsLister : NamespaceLister.t;
  namespaceClient : NamespaceInterface.t
}.

(** The packages [constants] and [conversion] of the syncer, which the
    checker imports: the annotation key of the delegated UID and the
    deletion policy, and the maps between a namespace of the super master
    and its owner.  The checker is verified for all of them. *)
Class Constants := {
  LabelUID : string;
  DefaultDeletionPolicy : string
}.

Class Conversion := {
  GetVirtualOwner : Namespace → string * string;
  ToSuperMasterNamespace : string → string → string
}.

(** When the stop channel is closed: whether the caches synced before, and
    how many periods elapse before. *)
Record StopCh := {
  syncedBeforeStop : bool;
  periodsBeforeStop : nat
}.

(** ** Computations *)

(** The outcome of a call: it returns, or a nil dereference or failed type
    assertion panics.  Nothing recovers a panic here
    ([utilruntime.HandleCrash] logs it and panics again), so a panic ends
    the process. *)
Inductive Res (A : Type) :=
| Ret (a : A)
| Panic.
Arguments Ret {A} a.
Arguments Panic {A}.

(** A computation gets the trace so far and gives the events it adds and
    its outcome. *)
Definition M (A : Type) : Type := list Event → list Event * Res A.

Definition ret {A} (a : A) : M A := λ _, ([], Ret a).

Definition bind {A B} (m : M A) (k : A → M B) : M B := λ h,
  match m h with
  | (e1, Ret a) => let '(e2, r) := k a (h ++ e1) in (e1 ++ e2, r)
  | (e1, Panic) => (e1, Panic)
  end.

Definition emit (e : Event) : M unit := λ _, ([e], Ret tt).

Definition panic {A} : M A := λ _, ([], Panic).

(** A call to a collaborator: the event, and the answer given the trace
    before the call. *)
Definition call {A} (e : Event) (answer : list Event → A) : M A :=
  λ h, ([e], Ret (answer h)).

(** Dereference of a pointer (or type assertion on an interface value)
    that may be nil. *)
Definition deref {A} (p : option A) : M A :=
  match p with
  | Some a => ret a
  | None => panic
  end.

(** [defer d] around [body] in the goroutine that runs [body]: [d] runs
    when [body] returns and also when it panics. *)
Definition deferred (d : M unit) (body : M unit) : M unit := λ h,
  match body h with
  | (e1, Ret _) => let '(e2, r) := d (h ++ e1) in (e1 ++ e2, r)
  | (e1, Panic) => let '(e2, _) := d (h ++ e1) in (e1 ++ e2, Panic)
  end.

Declare Scope checker_scope.
Delimit Scope checker_scope with checker.
Notation "'let*' x ':=' m 'in' k" := (bind m (λ x, k))
  (at level 10, x pattern, m at level 100, k at level 200) : checker_scope.
Notation "m ';;' k" := (bind m (λ _, k))
  (at level 100, k at level 200, right associativity) : checker_scope.
Open Scope checker_scope.

(** [for _, x := range l { body x }], where [continue] ends [body]. *)
Fixpoint range {A} (l : list A) (body : A → M unit) : M unit :=
  match l with
  | [] => ret tt
  | x :: rest => body x ;; range rest body
  end.

(** [wait.Until f period stopCh] when [n] periods elapse before the stop
    channel is closed. *)
Fixpoint Until (f : M unit) (n : nat) : M unit :=
  match n with
  | 0 => ret tt
  | S n' => f ;; Until f n'
  end.

Definition klog (sev : Severity) (msg : LogMsg) : M unit := emit (EvLog sev msg).

Definition Inc (label : string) : M unit := emit (EvCounterInc label).

Section Checker.
Context {constants : Constants} {conversion : Conversion}.
Variable c : controller.

(** Body of the loop of [checkNamespacesOfTenantCluster] (lines 120-140). *)
Definition checkVNamespace (clusterName : string) (vNamespace : Namespace) : M unit :=
  let targetNamespace := ToSuperMasterNamespace clusterName (Name vNamespace) in
  let* (pNamespace, err) :=
    call (EvGetSuper targetNamespace)
         (λ _, NamespaceLister.Get (nsLister c) targetNamespace) in
  if IsNotFound err then
    let* rerr :=
      call (EvRequeueObject clusterName vNamespace)
           (λ h, MultiClusterController.RequeueObject
                  (multiClusterNamespaceController c) h clusterName vNamespace) in
    match rerr with
    | Some e => klog SevError (MsgRequeueErr (Name vNamespace) clusterName e)
    | None => Inc "numRequeuedTenantNamespaces"
    end
  else
    match err with
    | Some e => klog SevError (MsgGetSuperErr targetNamespace e)
    | None => ret tt
    end ;;
    let* p := deref pNamespace in
    if bool_decide (annotation p LabelUID ≠ UID vNamespace) then
      klog SevError (MsgDelegatedUIDDiffers targetNamespace)
    else ret tt.

(** [checkNamespacesOfTenantCluster] (lines 112-141). *)
Definition checkNamespacesOfTenantCluster (clusterName : string) : M unit :=
  let* (listObj, err) :=
    call (EvListVirtual clusterName)
         (λ _, MultiClusterController.List
                  (multiClusterNamespaceController c) clusterName) in
  match err with
  | Some e => klog SevError (MsgListClusterErr clusterName e)
  | None =>
      klog (SevInfoV 4) (MsgCheckCluster clusterName) ;;
      let* namespaceList := deref listObj in
      range namespaceList (checkVNamespace clusterName)
  end.

(** The options of the delete of line 98. *)
Definition deleteOptions (pNamespace : Namespace) : DeleteOptions :=
  {| PropagationPolicy := Some DefaultDeletionPolicy;
     DeletePreconditions := Some (NewUIDPreconditions (UID pNamespace)) |}.

(** Body of the loop over the namespaces of the super master
    (lines 79-108). *)
Definition checkPNamespace (pNamespace : Namespace) : M unit :=
  let '(clusterName, vNamespace) := GetVirtualOwner pNamespace in
  if (String.length clusterName =? 0)%nat || (String.length vNamespace =? 0)%nat then ret tt
  else
    let* (vNamespaceObj, err) :=
      call (EvGetVirtual clusterName "" vNamespace)
           (λ _, MultiClusterController.Get
                  (multiClusterNamespaceController c) clusterName "" vNamespace) in
    let* shouldDelete :=
      match err with
      | None =>
          let* vNs := deref vNamespaceObj in
          if bool_decide (annotation pNamespace LabelUID ≠ UID vNs) then
            klog SevWarning (MsgDelegatedUIDDiffers (Name pNamespace)) ;;
            ret true
          else ret (IsNotFound err)
      | Some _ => ret (IsNotFound err)
      end in
    if shouldDelete : bool then
      let opts := deleteOptions pNamespace in
      let* derr :=
        call (EvDelete (Name pNamespace) opts)
             (λ h, NamespaceInterface.Delete (namespaceClient c) h (Name pNamespace) opts) in
      match derr with
      | Some e => klog SevError (MsgDeleteErr (Name pNamespace) e)
      | None => Inc "numDeletedOrphanSuperMasterNamespaces"
      end
    else ret tt.

(** The goroutines of lines 64-71, one per tenant cluster, joined by the
    wait group.  They are run here one after the other, in the order of
    [clusterNames].  The scans share nothing but the trace, and their
    decisions do not depend on it ([checkTenantClusters_any_schedule]
    below), so that this order stands for every order when the scans
    return.  When a scan panics, the process ends; the trace given here,
    cut at the panic, is the one of the schedule in which nothing else runs
    any more.  In other schedules the other goroutines add events around
    the panic, and the deferred [wg.Done] of the panicking goroutine may
    let lines 73-108 start before the process is gone. *)
Definition checkTenantClusters (clusterNames : list string) : M unit :=
  range clusterNames checkNamespacesOfTenantCluster.

(** Lines 73-108: the listing of the super master cache and the loop over
    it. *)
Definition checkPNamespaces : M unit :=
  let* (pNamespaces, err) :=
    call EvListSuper (λ _, NamespaceLister.List (nsLister c)) in
  match err with
  | Some e => klog SevError (MsgListSuperErr e)
  | None => range pNamespaces checkPNamespace
  end.

(** [checkNamespaces] (lines 55-109).  The deferred
    [RecordCheckerScanDuration] is registered before the goroutines start;
    it runs when [checkNamespaces] returns or panics itself.  The trace
    of a check in which a tenant goroutine panics is cut at that panic
    (see [checkTenantClusters]). *)
Definition checkNamespaces : M unit :=
  let* clusterNames :=
    call EvGetClusterNames
         (λ _, MultiClusterController.GetClusterNames
                  (multiClusterNamespaceController c)) in
  if (length clusterNames =? 0)%nat then klog SevInfo MsgNoClusters
  else
    checkTenantClusters clusterNames ;;
    deferred (emit (EvRecordCheckerScanDuration "namespace")) checkPNamespaces.

(** [StartPeriodChecker] (lines 39-51). *)
Definition StartPeriodChecker (stopCh : StopCh) : M (option error) :=
  if negb (syncedBeforeStop stopCh) then
    ret (Some (PlainError
      "failed to wait for caches to sync before starting Namespace checker"))
  else
    Until checkNamespaces (periodsBeforeStop stopCh) ;;
    ret None.

End Checker.

(** ** Observations on traces *)

Definition is_delete_of (name : string) (e : Event) : bool :=
  match e with
  | EvDelete n _ => bool_decide (n = name)
  | _ => false
  end.


Definition is_log (e : Event) : bool :=
  match e with
  | EvLog _ _ => true
  | _ => false
  end.

Definition not_delete (e : Event) : Prop := ∀ name opts, e ≠ EvDelete name opts.

Section Observations.
Context {constants : Constants} {conversion : Conversion}.
Variable c : controller.

(** The events after the lookup when the body decides to delete. *)
Definition deleteEvents (pNamespace : Namespace) (h : list Event) : list Event :=
  [EvDelete (Name pNamespace) (deleteOptions pNamespace);
   match NamespaceInterface.Delete (namespaceClient c) h
           (Name pNamespace) (deleteOptions pNamespace) with
   | Some e => EvLog SevError (MsgDeleteErr (Name pNamespace) e)
   | None => EvCounterInc "numDeletedOrphanSuperMasterNamespaces"
   end].

(** The deletes of the body for [pNamespace] are deletes of [pNamespace],
    conditioned on its own UID. *)
Definition delete_of (pNamespace : Namespace) (e : Event) : Prop :=
  ∀ name opts, e = EvDelete name opts →
    name = Name pNamespace ∧ opts = deleteOptions pNamespace.

(** The deletes of a check are deletes of namespaces listed from the super
    master cache, with the options of line 98. *)
Definition listed_delete (e : Event) : Prop :=
  ∀ name opts, e = EvDelete name opts →
    ∃ pNamespace,
      pNamespace ∈ (NamespaceLister.List (nsLister c)).1 ∧
      Name pNamespace = name ∧
      opts = deleteOptions pNamespace.

(** The reading of the delete under which its precondition is the UID
    delegated from the tenant namespace (the annotation [LabelUID] of the
    namespace of the super master). *)
Definition deletePreconditionIsDelegatedUID (h : list Event) : Prop :=
  ∀ name opts, EvDelete name opts ∈ (checkNamespaces c h).1 →
    ∃ pNamespace,
      pNamespace ∈ (NamespaceLister.List (nsLister c)).1 ∧
      Name pNamespace = name ∧
      DeletePreconditions opts =
        Some (NewUIDPreconditions (annotation pNamespace LabelUID)).

(** The reading of a mismatch under which every check deletes the
    namespace of the super master exactly once: whenever a listed
    namespace with an owner has a tenant namespace with another UID than
    the delegated one. *)
Definition mismatchIsDeletedOnce (h : list Event) : Prop :=
  ∀ pNamespace vNs clusterName vNamespace,
    pNamespace ∈ (NamespaceLister.List (nsLister c)).1 →
    GetVirtualOwner pNamespace = (clusterName, vNamespace) →
    clusterName ≠ "" → vNamespace ≠ "" →
    MultiClusterController.Get (multiClusterNamespaceController c)
      clusterName "" vNamespace = (Some vNs, None) →
    annotation pNamespace LabelUID ≠ UID vNs →
    tally (is_delete_of (Name pNamespace)) (checkNamespaces c h).1 = 1.

End Observations.

(** The remediation decisions of the checker, as they show in a trace: a
    delete of a namespace of the super master with the UID it is
    conditioned on, a requeue of a tenant namespace, and a report of a
    delegated UID that differs. *)
Inductive Decision :=
| DeletePhysical (physicalName : string) (expectedUID : option string)
| RequeueVirtual (tenant : string) (virtualObject : Namespace)
| ReportMismatch (physicalName : string).

Definition decision_of (e : Event) : option Decision :=
  match e with
  | EvDelete name opts =>
      Some (DeletePhysical name (DeletePreconditions opts ≫= PreconditionUID))
  | EvRequeueObject clusterName obj => Some (RequeueVirtual clusterName obj)
  | EvLog _ (MsgDelegatedUIDDiffers name) => Some (ReportMismatch name)
  | _ => None
  end.

Definition decisions (t : list Event) : list Decision := omap decision_of t.

(** Two controllers that read the same tenants, tenant namespaces and super
    master cache; their mutators may answer differently. *)
Definition same_reads (c1 c2 : controller) : Prop :=
  let mc1 := multiClusterNamespaceController c1 in
  let mc2 := multiClusterNamespaceController c2 in
  MultiClusterController.GetClusterNames mc1 = MultiClusterController.GetClusterNames mc2 ∧
  (∀ cl, MultiClusterController.List mc1 cl = MultiClusterController.List mc2 cl) ∧
  (∀ cl ns name, MultiClusterController.Get mc1 cl ns name =
                 MultiClusterController.Get mc2 cl ns name) ∧
  NamespaceLister.List (nsLister c1) = NamespaceLister.List (nsLister c2) ∧
  (∀ name, NamespaceLister.Get (nsLister c1) name = NamespaceLister.Get (nsLister c2) name).

(** Every event a computation adds satisfies [Q], whatever came before. *)
Definition emits {A} (Q : Event → Prop) (m : M A) : Prop :=
  ∀ h, Forall Q (m h).1.

(** Two computations take the same decisions and end the same way,
    whatever came before each. *)
Definition same_decisions {A} (m1 m2 : M A) : Prop :=
  ∀ h1 h2, decisions (m1 h1).1 = decisions (m2 h2).1 ∧ (m1 h1).2 = (m2 h2).2.

(** The traces of goroutines that run concurrently merge into one trace:
    at each step one of the goroutines adds its next event. *)
Inductive interleaving : list (list Event) → list Event → Prop :=
| interleaving_done ts : Forall (λ t, t = []) ts → interleaving ts []
| interleaving_step ts1 e t ts2 evs :
    interleaving (ts1 ++ t :: ts2) evs →
    interleaving (ts1 ++ (e :: t) :: ts2) (e :: evs).

Section Goroutines.
Context {constants : Constants} {conversion : Conversion}.
Variable c : controller.

(** The traces of the tenant goroutines, when the goroutine of the n-th
    cluster finds the n-th of the traces [hs] before it. *)
Definition tenantTraces (clusterNames : list string) (hs : list (list Event)) :
    list (list Event) :=
  zip_with (λ clusterName h, (checkNamespacesOfTenantCluster c clusterName h).1)
           clusterNames hs.

(** The decisions of the scan of a tenant. *)
Definition tenantDecisions (clusterName : string) : list Decision :=
  decisions (checkNamespacesOfTenantCluster c clusterName []).1.

End Goroutines.

(** ** Further observations *)

Definition is_delete (e : Event) : bool :=
  match e with
  | EvDelete _ _ => true
  | _ => false
  end.

Definition is_requeue (e : Event) : bool :=
  match e with
  | EvRequeueObject _ _ => true
  | _ => false
  end.

Definition is_record (e : Event) : bool :=
  match e with
  | EvRecordCheckerScanDuration _ => true
  | _ => false
  end.

Definition is_delete_err (e : Event) : bool :=
  match e with
  | EvLog SevError (MsgDeleteErr _ _) => true
  | _ => false
  end.

Definition is_requeue_err (e : Event) : bool :=
  match e with
  | EvLog SevError (MsgRequeueErr _ _ _) => true
  | _ => false
  end.

(** Every delete and every requeue of a trace is accounted for: counted in
    its counter or logged as failed. *)
Definition accounted (t : list Event) : Prop :=
  tally is_delete t =
    tally (is_inc "numDeletedOrphanSuperMasterNamespaces") t + tally is_delete_err t ∧
  tally is_requeue t =
    tally (is_inc "numRequeuedTenantNamespaces") t + tally is_requeue_err t.

(** What a computation adds to the trace satisfies [P], whatever came
    before. *)
Definition adds {A} (P : list Event → Prop) (m : M A) : Prop :=
  ∀ h, P (m h).1.

(** The events of a check that neither change anything nor report a
    problem: the reads, the two logs at info severity and the record of
    the scan duration. *)
Definition quiet (e : Event) : bool :=
  match e with
  | EvGetClusterNames | EvListVirtual _ | EvGetVirtual _ _ _
  | EvListSuper | EvGetSuper _ | EvRecordCheckerScanDuration _ => true
  | EvLog SevInfo MsgNoClusters | EvLog (SevInfoV _) (MsgCheckCluster _) => true
  | _ => false
  end.

(** The counters a check increments. *)
Definition checker_label (e : Event) : Prop :=
  ∀ label, e = EvCounterInc label →
    label = "numRequeuedTenantNamespaces" ∨
    label = "numDeletedOrphanSuperMasterNamespaces".

Section FurtherObservations.
Context {constants : Constants} {conversion : Conversion}.
Variable c : controller.

(** A delete is justified when it is the delete of a listed namespace of
    the super master with an owner, whose tenant namespace is not found or
    has another UID than the delegated one. *)
Definition justified_delete (e : Event) : Prop :=
  ∀ name opts, e = EvDelete name opts →
    ∃ pNamespace clusterName vNamespace,
      pNamespace ∈ (NamespaceLister.List (nsLister c)).1 ∧
      Name pNamespace = name ∧
      GetVirtualOwner pNamespace = (clusterName, vNamespace) ∧
      clusterName ≠ "" ∧ vNamespace ≠ "" ∧
      let answer := MultiClusterController.Get (multiClusterNamespaceController c)
                      clusterName "" vNamespace in
      IsNotFound answer.2 = true ∨
      ∃ vNs, answer = (Some vNs, None) ∧ annotation pNamespace LabelUID ≠ UID vNs.

(** A requeue is justified when it is the requeue, to its own tenant, of a
    namespace the tenant lists, whose namespace in the super master is
    not found. *)
Definition justified_requeue (e : Event) : Prop :=
  ∀ clusterName obj, e = EvRequeueObject clusterName obj →
    clusterName ∈ MultiClusterController.GetClusterNames
                    (multiClusterNamespaceController c) ∧
    (∃ listObj namespaceList,
       MultiClusterController.List (multiClusterNamespaceController c) clusterName =
         (listObj, None) ∧
       listObj = Some namespaceList ∧ obj ∈ namespaceList) ∧
    IsNotFound (NamespaceLister.Get (nsLister c)
                  (ToSuperMasterNamespace clusterName (Name obj))).2 = true.

(** The lookup of the super master cache that makes the tenant scan
    dereference nil: it gives no namespace and no not-found error. *)
Definition nilLookup (clusterName : string) (vNamespace : Namespace) : Prop :=
  let answer := NamespaceLister.Get (nsLister c)
                  (ToSuperMasterNamespace clusterName (Name vNamespace)) in
  IsNotFound answer.2 = false ∧ answer.1 = None.

(** Collaborators that keep the convention of Go: a listing or lookup
    gives a value or an error, and the super master cache fails only with
    not found. *)
Definition conventional : Prop :=
  (∀ clusterName,
     let answer := MultiClusterController.List
                     (multiClusterNamespaceController c) clusterName in
     answer.2 = None → is_Some answer.1) ∧
  (∀ name,
     let answer := NamespaceLister.Get (nsLister c) name in
     IsNotFound answer.2 = false → is_Some answer.1) ∧
  (∀ clusterName namespace name,
     let answer := MultiClusterController.Get
                     (multiClusterNamespaceController c) clusterName namespace name in
     answer.2 = None → is_Some answer.1).

(** A tenant all of whose namespaces are in the super master cache with
    the delegated UID. *)
Definition consistentTenant (clusterName : string) : Prop :=
  ∃ namespaceList,
    MultiClusterController.List (multiClusterNamespaceController c) clusterName =
      (Some namespaceList, None) ∧
    ∀ vNamespace, vNamespace ∈ namespaceList →
      ∃ pNamespace,
        NamespaceLister.Get (nsLister c)
          (ToSuperMasterNamespace clusterName (Name vNamespace)) =
          (Some pNamespace, None) ∧
        annotation pNamespace LabelUID = UID vNamespace.

(** A super master cache all of whose namespaces have no owner, or a
    tenant namespace with the delegated UID. *)
Definition consistentSuper : Prop :=
  ∃ pNamespaces,
    NamespaceLister.List (nsLister c) = (pNamespaces, None) ∧
    ∀ pNamespace, pNamespace ∈ pNamespaces →
      (GetVirtualOwner pNamespace).1 = "" ∨
      (GetVirtualOwner pNamespace).2 = "" ∨
      ∃ vNs,
        MultiClusterController.Get (multiClusterNamespaceController c)
          (GetVirtualOwner pNamespace).1 "" (GetVirtualOwner pNamespace).2 =
          (Some vNs, None) ∧
        annotation pNamespace LabelUID = UID vNs.

Definition consistent : Prop :=
  (∀ clusterName,
     clusterName ∈ MultiClusterController.GetClusterNames
                     (multiClusterNamespaceController c) →
     consistentTenant clusterName) ∧
  consistentSuper.

End FurtherObservations.

(** ** Scenarios *)

(** Concrete packages and controllers on which the properties below are
    evaluated. *)
Module Scenario.

Definition syncerConstants : Constants :=
  {| LabelUID := "tenancy.x-k8s.io/uid";
     DefaultDeletionPolicy := "Background" |}.

Definition syncerConversion : Conversion :=
  {| GetVirtualOwner := λ obj,
       (annotation obj "tenancy.x-k8s.io/cluster",
        annotation obj "tenancy.x-k8s.io/namespace");
     ToSuperMasterNamespace := λ cluster ns, (cluster ++ "-" ++ ns)%string |}.

Definition notFound : error := StatusError StatusReasonNotFound "not found".
Definition internalError : error := StatusError StatusReasonInternalError "internal error".

(** A namespace [ns] of tenant [cluster] in the super master, with its own
    UID and the UID delegated from the tenant namespace. *)
Definition pNs (cluster ns uid delegatedUID : string) : Namespace :=
  {| Name := (cluster ++ "-" ++ ns)%string;
     UID := uid;
     Annotations := {[ "tenancy.x-k8s.io/cluster" := cluster;
                       "tenancy.x-k8s.io/namespace" := ns;
                       "tenancy.x-k8s.io/uid" := delegatedUID ]} |}.

Definition vNs (ns uid : string) : Namespace :=
  {| Name := ns; UID := uid; Annotations := ∅ |}.

(** Lookup in a list of namespaces by name, as a cache does. *)
Definition getByName (l : list Namespace) (name : string) : option Namespace * option error :=
  match find (λ n, bool_decide (Name n = name)) l with
  | Some n => (Some n, None)
  | None => (None, Some notFound)
  end.

(** A controller over one tenant [t1] with namespaces [vs], a super master
    cache with namespaces [ps], and mutators that answer [requeueErr] and
    [deleteErr]. *)
Definition mk (clusters : list string) (vs ps : list Namespace)
    (requeueErr deleteErr : option error) : controller :=
  {| multiClusterNamespaceController :=
       {| MultiClusterController.GetClusterNames := clusters;
          MultiClusterController.List := λ _, (Some vs, None);
          MultiClusterController.Get := λ _ _ name, getByName vs name;
          MultiClusterController.RequeueObject := λ _ _ _, requeueErr |};
     nsLister :=
       {| NamespaceLister.List := (ps, None);
          NamespaceLister.Get := getByName ps |};
     namespaceClient :=
       {| NamespaceInterface.Delete := λ _ _ _, deleteErr |} |}.

(** The same controller with another lookup in the super master cache, or
    in the tenants. *)
Definition withSuperGet (get : string → option Namespace * option error)
    (c : controller) : controller :=
  {| multiClusterNamespaceController := multiClusterNamespaceController c;
     nsLister :=
       {| NamespaceLister.List := NamespaceLister.List (nsLister c);
          NamespaceLister.Get := get |};
     namespaceClient := namespaceClient c |}.

Definition withTenantGet
    (get : string → string → string → option Namespace * option error)
    (c : controller) : controller :=
  let mc := multiClusterNamespaceController c in
  {| multiClusterNamespaceController :=
       {| MultiClusterController.GetClusterNames := MultiClusterController.GetClusterNames mc;
          MultiClusterController.List := MultiClusterController.List mc;
          MultiClusterController.Get := get;
          MultiClusterController.RequeueObject := MultiClusterController.RequeueObject mc |};
     nsLister := nsLister c;
     namespaceClient := namespaceClient c |}.

(** Tenant [t1] has the namespaces [ns1] and [ns2], neither is in the super
    master, and the cache fails on the lookup of [t1-ns1]. *)
Definition cacheFails : controller :=
  withSuperGet
    (λ name, if bool_decide (name = "t1-ns1") then (None, Some internalError)
             else (None, Some notFound))
    (mk ["t1"] [vNs "ns1" "u1"; vNs "ns2" "u2"] [] None None).

(** The super master has [t1-ns1], and the lookup of its tenant namespace
    fails. *)
Definition tenantFails : controller :=
  withTenantGet (λ _ _ _, (None, Some internalError))
    (mk ["t1"] [] [pNs "t1" "ns1" "p1" "u1"] None None).

(** The caches synced and three periods elapse before the stop; and the
    stop comes before the caches synced. *)
Definition stopLater : StopCh :=
  {| syncedBeforeStop := true; periodsBeforeStop := 3 |}.

Definition stopFirst : StopCh :=
  {| syncedBeforeStop := false; periodsBeforeStop := 3 |}.

(** The namespace [t1-ns1] of the super master, with UID [p1] and the
    delegated UID [u1]. *)
Definition t1ns1 : Namespace := pNs "t1" "ns1" "p1" "u1".

(** Tenant [t1] has no namespace and the super master has the orphan
    [t1-ns1]. *)
Definition orphan (deleteErr : option error) : controller :=
  mk ["t1"] [] [t1ns1] None deleteErr.

(** Tenant [t1] has [ns1] and the super master has nothing. *)
Definition missing (requeueErr : option error) : controller :=
  mk ["t1"] [vNs "ns1" "u1"] [] requeueErr None.

(** Tenant [t1] has [ns1] with UID [u2]; the super master has [t1-ns1]
    with the delegated UID [u1]. *)
Definition stale : controller :=
  mk ["t1"] [vNs "ns1" "u2"] [t1ns1] None None.

(** As [stale], where the namespace of the super master has no delegated
    UID. *)
Definition t1ns1' : Namespace :=
  {| Name := "t1-ns1"; UID := "p1";
     Annotations := {[ "tenancy.x-k8s.io/cluster" := "t1";
                       "tenancy.x-k8s.io/namespace" := "ns1" ]} |}.

Definition undelegated : controller :=
  mk ["t1"] [vNs "ns1" "u2"] [t1ns1'] None None.

(** No tenant at all. *)
Definition noTenants : controller :=
  mk [] [] [pNs "t1" "ns1" "p1" "u1"] None None.

(** Tenant [t1] has [ns1] with UID [u1], and the super master has
    [t1-ns1] with the delegated UID [u1]. *)
Definition inSync : controller :=
  mk ["t1"] [vNs "ns1" "u1"] [t1ns1] None None.

(** Two tenants that both have [ns1], which the super master has for
    neither. *)
Definition twoTenants : controller :=
  mk ["t1"; "t2"] [vNs "ns1" "u1"] [] None None.

(** A trace of [twoTenants] in which the goroutines of [t1] and [t2] take
    turns, event by event. *)
Definition turns : list Event :=
  [EvListVirtual "t1"; EvListVirtual "t2";
   EvLog (SevInfoV 4) (MsgCheckCluster "t1");
   EvLog (SevInfoV 4) (MsgCheckCluster "t2");
   EvGetSuper "t1-ns1"; EvGetSuper "t2-ns1";
   EvRequeueObject "t1" (vNs "ns1" "u1"); EvRequeueObject "t2" (vNs "ns1" "u1");
   EvCounterInc "numRequeuedTenantNamespaces";
   EvCounterInc "numRequeuedTenantNamespaces"].

(** As [twoTenants], where the listing of [t2] fails. *)
Definition listFails : controller :=
  let mc := multiClusterNamespaceController twoTenants in
  {| multiClusterNamespaceController :=
       {| MultiClusterController.GetClusterNames := MultiClusterController.GetClusterNames mc;
          MultiClusterController.List := λ clusterName,
            if bool_decide (clusterName = "t2") then (None, Some internalError)
            else MultiClusterController.List mc clusterName;
          MultiClusterController.Get := MultiClusterController.Get mc;
          MultiClusterController.RequeueObject := MultiClusterController.RequeueObject mc |};
     nsLister := nsLister twoTenants;
     namespaceClient := namespaceClient twoTenants |}.

(** As [orphan], where the listing of the super master cache fails. *)
Definition superListFails : controller :=
  {| multiClusterNamespaceController := multiClusterNamespaceController (orphan None);
     nsLister :=
       {| NamespaceLister.List := ([], Some internalError);
          NamespaceLister.Get := NamespaceLister.Get (nsLister (orphan None)) |};
     namespaceClient := namespaceClient (orphan None) |}.

(** As [stale] with no tenant cluster, with a listing of the super master
    cache that gives the namespace and an error, and with the namespace
    listed twice. *)
Definition staleNoTenants : controller :=
  mk [] [vNs "ns1" "u2"] [t1ns1] None None.

Definition staleListErr : controller :=
  {| multiClusterNamespaceController := multiClusterNamespaceController stale;
     nsLister :=
       {| NamespaceLister.List := ([t1ns1], Some internalError);
          NamespaceLister.Get := NamespaceLister.Get (nsLister stale) |};
     namespaceClient := namespaceClient stale |}.

Definition staleTwice : controller :=
  mk ["t1"] [vNs "ns1" "u2"] [t1ns1; t1ns1] None None.

End Scenario.

(** ** Running computations *)

Section Running.
Context {A B : Type}.
Implicit Types (m : M A) (k : A → M B) (h : list Event).

Lemma bind_Ret m k h e1 a :
  m h = (e1, Ret a) →
  bind m k h = (e1 ++ (k a (h ++ e1)).1, (k a (h ++ e1)).2).
Proof. intros Hm. unfold bind. rewrite Hm. by destruct (k a (h ++ e1)). Qed.

Lemma bind_Panic m k h e1 :
  m h = (e1, Panic) → bind m k h = (e1, Panic).
Proof. intros Hm. unfold bind. by rewrite Hm. Qed.

Lemma bind_fst m k h :
  (bind m k h).1 =
    (m h).1 ++ match (m h).2 with Ret a => (k a (h ++ (m h).1)).1 | Panic => [] end.
Proof.
  unfold bind. destruct (m h) as [e1 [a|]]; simpl.
  - by destruct (k a (h ++ e1)).
  - by rewrite (right_id_L [] (++)).
Qed.

Lemma bind_Ret_inv m k h evs b :
  bind m k h = (evs, Ret b) →
  ∃ e1 a e2, m h = (e1, Ret a) ∧ k a (h ++ e1) = (e2, Ret b) ∧ evs = e1 ++ e2.
Proof.
  unfold bind. destruct (m h) as [e1 [a|]]; [|discriminate].
  destruct (k a (h ++ e1)) as [e2 r] eqn:Hk. intros [= <- ->].
  by exists e1, a, e2.
Qed.

End Running.

Lemma deferred_Ret_inv (d body : M unit) h evs :
  deferred d body h = (evs, Ret tt) →
  ∃ e1 e2, body h = (e1, Ret tt) ∧ d (h ++ e1) = (e2, Ret tt) ∧ evs = e1 ++ e2.
Proof.
  unfold deferred. destruct (body h) as [e1 [[]|]].
  - destruct (d (h ++ e1)) as [e2 r] eqn:Hd. intros [= <- ->].
    by exists e1, e2.
  - by destruct (d (h ++ e1)).
Qed.

Lemma range_app {A} (l1 l2 : list A) (body : A → M unit) h :
  range (l1 ++ l2) body h = (range l1 body ;; range l2 body) h.
Proof.
  revert h. induction l1 as [|x l1 IH]; intros h; simpl.
  - unfold bind, ret. rewrite (right_id_L [] (++)).
    by destruct (range l2 body h).
  - unfold bind. destruct (body x h) as [e1 [[]|]]; [|done].
    rewrite IH. unfold bind.
    destruct (range l1 body (h ++ e1)) as [e2 [[]|]]; [|done].
    rewrite <- !(assoc_L (++)).
    destruct (range l2 body (h ++ e1 ++ e2)); simpl.
    by rewrite (assoc_L (++)).
Qed.

(** A loop that returns has run the body of each element. *)
Lemma range_Ret_emits {A} (l : list A) (body : A → M unit) h evs x e :
  range l body h = (evs, Ret tt) → x ∈ l →
  (∀ h', e ∈ (body x h').1) → e ∈ evs.
Proof.
  intros Hrun (l1 & l2 & ->)%list_elem_of_split He.
  rewrite range_app in Hrun.
  apply bind_Ret_inv in Hrun as (e1 & [] & e23 & _ & Hr23 & ->).
  simpl in Hr23.
  apply bind_Ret_inv in Hr23 as (e2 & [] & e3 & Hr2 & _ & ->).
  rewrite !elem_of_app. right. left.
  change e2 with (e2, Ret ()).1. rewrite <- Hr2. apply He.
Qed.

(** ** Counting events *)

Lemma tally_app f t1 t2 : tally f (t1 ++ t2) = tally f t1 + tally f t2.
Proof. unfold tally. by rewrite filter_app, length_app. Qed.

Lemma tally_none f t : Forall (λ e, f e = false) t → tally f t = 0.
Proof.
  unfold tally. induction 1 as [|e t He _ IH]; [done|].
  rewrite filter_cons_False; [done|congruence].
Qed.




Lemma tally_cons f e t : tally f (e :: t) = (if f e then 1 else 0) + tally f t.
Proof.
  unfold tally. destruct (f e) eqn:He.
  - by rewrite filter_cons_True.
  - rewrite filter_cons_False; [done|congruence].
Qed.

Lemma tally_nil f : tally f [] = 0.
Proof. done. Qed.


Lemma is_delete_of_refl name opts : is_delete_of name (EvDelete name opts) = true.
Proof. simpl. by apply bool_decide_eq_true_2. Qed.

(** A loop whose bodies add no event that counts adds none. *)
Lemma tally_range_none {A} f (l : list A) (body : A → M unit) h :
  (∀ x h', x ∈ l → tally f (body x h').1 = 0) →
  tally f (range l body h).1 = 0.
Proof.
  revert h. induction l as [|x l IH]; intros h Hb; [done|].
  simpl. rewrite bind_fst, tally_app, Hb by left.
  destruct (body x h).2; [|done].
  apply IH. intros y h' Hy. apply Hb. by right.
Qed.

(** A loop that returns, in which the body of one element adds one event
    that counts and the bodies of the others none, adds one. *)
Lemma tally_range_one {A} f (l1 l2 : list A) x (body : A → M unit) h evs :
  range (l1 ++ x :: l2) body h = (evs, Ret tt) →
  (∀ y h', y ∈ l1 ++ l2 → tally f (body y h').1 = 0) →
  (∀ h', tally f (body x h').1 = 1) →
  tally f evs = 1.
Proof.
  intros Hrun Hothers Hx. rewrite range_app in Hrun.
  apply bind_Ret_inv in Hrun as (e1 & [] & e23 & Hr1 & Hr23 & ->).
  simpl in Hr23.
  apply bind_Ret_inv in Hr23 as (e2 & [] & e3 & Hr2 & Hr3 & ->).
  rewrite !tally_app.
  assert (tally f e1 = 0) as ->.
  { change e1 with (e1, Ret ()).1. rewrite <- Hr1. apply tally_range_none.
    intros y h' Hy. apply Hothers. apply elem_of_app. by left. }
  assert (tally f e2 = 1) as ->.
  { change e2 with (e2, Ret ()).1. rewrite <- Hr2. apply Hx. }
  assert (tally f e3 = 0) as ->; [|done].
  change e3 with (e3, Ret ()).1. rewrite <- Hr3. apply tally_range_none.
  intros y h' Hy. apply Hothers. apply elem_of_app. by right.
Qed.

(** ** The loop bodies *)

Section Bodies.
Context {constants : Constants} {conversion : Conversion}.
Variable c : controller.
Local Arguments tally : simpl never.

(** The tenant-side body when the lookup in the super master cache says
    not found. *)
Lemma checkVNamespace_not_found clusterName vNamespace h pNamespace err :
  let targetNamespace := ToSuperMasterNamespace clusterName (Name vNamespace) in
  NamespaceLister.Get (nsLister c) targetNamespace = (pNamespace, err) →
  IsNotFound err = true →
  checkVNamespace c clusterName vNamespace h =
    ([EvGetSuper targetNamespace; EvRequeueObject clusterName vNamespace;
      match MultiClusterController.RequeueObject (multiClusterNamespaceController c)
              (h ++ [EvGetSuper targetNamespace]) clusterName vNamespace with
      | Some e => EvLog SevError (MsgRequeueErr (Name vNamespace) clusterName e)
      | None => EvCounterInc "numRequeuedTenantNamespaces"
      end], Ret tt).
Proof.
  intros target Hget Hnf. unfold checkVNamespace, bind, call. fold target.
  rewrite Hget, Hnf. simpl.
  by destruct (MultiClusterController.RequeueObject _ _ _ _).
Qed.

(** The tenant-side body when the lookup fails otherwise: the error is
    logged and the nil namespace is dereferenced. *)
Lemma checkVNamespace_lookup_error clusterName vNamespace h e :
  let targetNamespace := ToSuperMasterNamespace clusterName (Name vNamespace) in
  NamespaceLister.Get (nsLister c) targetNamespace = (None, Some e) →
  IsNotFound (Some e) = false →
  checkVNamespace c clusterName vNamespace h =
    ([EvGetSuper targetNamespace;
      EvLog SevError (MsgGetSuperErr targetNamespace e)], Panic).
Proof.
  intros target Hget Hnf. unfold checkVNamespace, bind, call. fold target.
  by rewrite Hget, Hnf.
Qed.

(** The tenant-side body when the namespace is found in the super master
    cache. *)
Lemma checkVNamespace_found clusterName vNamespace h pNamespace :
  let targetNamespace := ToSuperMasterNamespace clusterName (Name vNamespace) in
  NamespaceLister.Get (nsLister c) targetNamespace = (Some pNamespace, None) →
  checkVNamespace c clusterName vNamespace h =
    (EvGetSuper targetNamespace ::
       if bool_decide (annotation pNamespace LabelUID ≠ UID vNamespace)
       then [EvLog SevError (MsgDelegatedUIDDiffers targetNamespace)] else [],
     Ret tt).
Proof.
  intros target Hget. unfold checkVNamespace, bind, call. fold target.
  rewrite Hget. simpl. by case_bool_decide.
Qed.

(** The super-master-side body skips a namespace without owner. *)
Lemma checkPNamespace_no_owner pNamespace h :
  (GetVirtualOwner pNamespace).1 = "" ∨ (GetVirtualOwner pNamespace).2 = "" →
  checkPNamespace c pNamespace h = ([], Ret tt).
Proof.
  unfold checkPNamespace. destruct (GetVirtualOwner pNamespace) as [cl vn].
  simpl. by intros [-> | ->]; simpl; rewrite ?orb_true_r.
Qed.

Lemma length_eqb_0 (s : string) : s ≠ "" → (String.length s =? 0)%nat = false.
Proof. by destruct s. Qed.


Lemma checkPNamespace_not_found pNamespace h clusterName vNamespace vObj err :
  GetVirtualOwner pNamespace = (clusterName, vNamespace) →
  clusterName ≠ "" → vNamespace ≠ "" →
  MultiClusterController.Get (multiClusterNamespaceController c)
    clusterName "" vNamespace = (vObj, err) →
  IsNotFound err = true →
  checkPNamespace c pNamespace h =
    (EvGetVirtual clusterName "" vNamespace ::
       deleteEvents c pNamespace (h ++ [EvGetVirtual clusterName "" vNamespace]),
     Ret tt).
Proof.
  intros Hown Hcl Hvn Hget Hnf. unfold checkPNamespace, deleteEvents.
  rewrite Hown, (length_eqb_0 _ Hcl), (length_eqb_0 _ Hvn). simpl.
  unfold bind, call. rewrite Hget.
  destruct err as [e|]; [|done]. simpl. rewrite Hnf. simpl.
  rewrite <- (assoc_L (++)). simpl.
  by destruct (NamespaceInterface.Delete _ _ _ _).
Qed.

Lemma checkPNamespace_lookup_error pNamespace h clusterName vNamespace vObj e :
  GetVirtualOwner pNamespace = (clusterName, vNamespace) →
  clusterName ≠ "" → vNamespace ≠ "" →
  MultiClusterController.Get (multiClusterNamespaceController c)
    clusterName "" vNamespace = (vObj, Some e) →
  IsNotFound (Some e) = false →
  checkPNamespace c pNamespace h =
    ([EvGetVirtual clusterName "" vNamespace], Ret tt).
Proof.
  intros Hown Hcl Hvn Hget Hnf. unfold checkPNamespace.
  rewrite Hown, (length_eqb_0 _ Hcl), (length_eqb_0 _ Hvn). simpl.
  unfold bind, call. rewrite Hget. simpl. by rewrite Hnf.
Qed.

Lemma checkPNamespace_mismatch pNamespace h clusterName vNamespace vNs :
  GetVirtualOwner pNamespace = (clusterName, vNamespace) →
  clusterName ≠ "" → vNamespace ≠ "" →
  MultiClusterController.Get (multiClusterNamespaceController c)
    clusterName "" vNamespace = (Some vNs, None) →
  annotation pNamespace LabelUID ≠ UID vNs →
  checkPNamespace c pNamespace h =
    (EvGetVirtual clusterName "" vNamespace ::
     EvLog SevWarning (MsgDelegatedUIDDiffers (Name pNamespace)) ::
       deleteEvents c pNamespace
         (h ++ [EvGetVirtual clusterName "" vNamespace;
                EvLog SevWarning (MsgDelegatedUIDDiffers (Name pNamespace))]),
     Ret tt).
Proof.
  intros Hown Hcl Hvn Hget Hne. unfold checkPNamespace, deleteEvents.
  rewrite Hown, (length_eqb_0 _ Hcl), (length_eqb_0 _ Hvn). simpl.
  unfold bind, call, klog, emit. rewrite Hget. simpl.
  rewrite bool_decide_eq_true_2 by done. simpl.
  rewrite <- (assoc_L (++)). simpl.
  by destruct (NamespaceInterface.Delete _ _ _ _).
Qed.

Lemma checkPNamespace_match pNamespace h clusterName vNamespace vNs :
  GetVirtualOwner pNamespace = (clusterName, vNamespace) →
  clusterName ≠ "" → vNamespace ≠ "" →
  MultiClusterController.Get (multiClusterNamespaceController c)
    clusterName "" vNamespace = (Some vNs, None) →
  annotation pNamespace LabelUID = UID vNs →
  checkPNamespace c pNamespace h =
    ([EvGetVirtual clusterName "" vNamespace], Ret tt).
Proof.
  intros Hown Hcl Hvn Hget Heq. unfold checkPNamespace.
  rewrite Hown, (length_eqb_0 _ Hcl), (length_eqb_0 _ Hvn). simpl.
  unfold bind, call. rewrite Hget. simpl.
  rewrite bool_decide_eq_false_2 by (by intros []). done.
Qed.



End Bodies.

(** ** What a computation can emit *)

Section Emits.
Variable Q : Event → Prop.

Lemma emits_ret {A} (a : A) : emits Q (ret a).
Proof. intros h. constructor. Qed.

Lemma emits_panic {A} : emits Q (@panic A).
Proof. intros h. constructor. Qed.

Lemma emits_deref {A} (p : option A) : emits Q (deref p).
Proof. destruct p; [apply emits_ret | apply emits_panic]. Qed.

Lemma emits_emit e : Q e → emits Q (emit e).
Proof. intros He h. by repeat constructor. Qed.

Lemma emits_call {A} e (answer : list Event → A) : Q e → emits Q (call e answer).
Proof. intros He h. by repeat constructor. Qed.

Lemma emits_bind {A B} (m : M A) (k : A → M B) :
  emits Q m → (∀ a, emits Q (k a)) → emits Q (bind m k).
Proof.
  intros Hm Hk h. unfold bind. specialize (Hm h).
  destruct (m h) as [e1 [a|]]; [|done].
  specialize (Hk a (h ++ e1)). destruct (k a (h ++ e1)) as [e2 r].
  by apply Forall_app.
Qed.

Lemma emits_range {A} (l : list A) (body : A → M unit) :
  (∀ x, x ∈ l → emits Q (body x)) → emits Q (range l body).
Proof.
  induction l as [|x l IH]; intros Hb; simpl.
  - apply emits_ret.
  - apply emits_bind; [apply Hb; left|intros _; apply IH].
    intros y Hy. apply Hb. by right.
Qed.

Lemma emits_deferred (d body : M unit) :
  emits Q d → emits Q body → emits Q (deferred d body).
Proof.
  intros Hd Hb h. unfold deferred. specialize (Hb h).
  destruct (body h) as [e1 r]. specialize (Hd (h ++ e1)).
  destruct (d (h ++ e1)) as [e2 r2].
  destruct r; by apply Forall_app.
Qed.

Lemma emits_Until (f : M unit) n : emits Q f → emits Q (Until f n).
Proof.
  intros Hf. induction n as [|n IH]; simpl.
  - apply emits_ret.
  - by apply emits_bind.
Qed.

(** A read, whose answer is known. *)
Lemma emits_read {A B} e (a : A) (k : A → M B) :
  Q e → emits Q (k a) → emits Q (bind (call e (λ _, a)) k).
Proof.
  intros He Hk h. unfold bind, call. specialize (Hk (h ++ [e])).
  destruct (k a (h ++ [e])) as [e2 r]. by constructor.
Qed.

End Emits.

Lemma emits_mono {A} (Q1 Q2 : Event → Prop) (m : M A) :
  (∀ e, Q1 e → Q2 e) → emits Q1 m → emits Q2 m.
Proof. intros HQ Hm h. eapply Forall_impl; [apply Hm|done]. Qed.

(** One step through the syntax of a computation. *)
Ltac emits_step :=
  lazymatch goal with
  | |- emits _ (bind _ _) => apply emits_bind; [|intros ?]
  | |- emits _ (ret _) => apply emits_ret
  | |- emits _ (call _ _) => apply emits_call
  | |- emits _ (emit _) => apply emits_emit
  | |- emits _ (klog _ _) => apply emits_emit
  | |- emits _ (Inc _) => apply emits_emit
  | |- emits _ (deref _) => apply emits_deref
  | |- emits _ panic => apply emits_panic
  | |- emits _ (match ?x with _ => _ end) => destruct x
  end.

Section EmitsChecker.
Context {constants : Constants} {conversion : Conversion}.
Variable c : controller.

(** A tenant scan never deletes. *)
Lemma checkVNamespace_not_delete clusterName vNamespace :
  emits not_delete (checkVNamespace c clusterName vNamespace).
Proof. unfold checkVNamespace. repeat emits_step; by intros ??. Qed.

Lemma checkNamespacesOfTenantCluster_not_delete clusterName :
  emits not_delete (checkNamespacesOfTenantCluster c clusterName).
Proof.
  unfold checkNamespacesOfTenantCluster. repeat emits_step; try by intros ??.
  apply emits_range. intros. apply checkVNamespace_not_delete.
Qed.

Lemma checkTenantClusters_not_delete clusterNames :
  emits not_delete (checkTenantClusters c clusterNames).
Proof.
  apply emits_range. intros. apply checkNamespacesOfTenantCluster_not_delete.
Qed.

(** The deletes of the body for a namespace of the super master are
    deletes of that namespace. *)
Lemma checkPNamespace_delete_of pNamespace :
  emits (delete_of pNamespace) (checkPNamespace c pNamespace).
Proof.
  unfold checkPNamespace. repeat emits_step; try by intros ??.
  all: by intros ?? [= <- <-].
Qed.

Lemma checkNamespaces_listed_delete :
  emits (listed_delete c) (checkNamespaces c).
Proof.
  unfold checkNamespaces.
  apply emits_bind; [apply emits_call; by intros ??|]. intros clusterNames.
  destruct (_ =? _)%nat; [apply emits_emit; by intros ??|].
  apply emits_bind.
  { eapply emits_mono; [|apply checkTenantClusters_not_delete].
    intros e He name opts ->. by destruct (He name opts). }
  intros _. apply emits_deferred; [apply emits_emit; by intros ??|].
  unfold checkPNamespaces, listed_delete.
  destruct (NamespaceLister.List (nsLister c)) as [pNamespaces err].
  apply emits_read; [by intros ??|].
  destruct err; [apply emits_emit; by intros ??|].
  apply emits_range. intros pNamespace Hin.
  eapply emits_mono; [|apply checkPNamespace_delete_of].
  intros e He name opts Heq. destruct (He name opts Heq) as [-> ->].
  by exists pNamespace.
Qed.

End EmitsChecker.

(** ** Computations that take the same decisions *)

Lemma decisions_app t1 t2 : decisions (t1 ++ t2) = decisions t1 ++ decisions t2.
Proof. apply omap_app. Qed.

Lemma sd_ret {A} (a : A) : same_decisions (ret a) (ret a).
Proof. by intros h1 h2. Qed.

Lemma sd_panic {A} : same_decisions (@panic A) panic.
Proof. by intros h1 h2. Qed.

Lemma sd_deref {A} (p : option A) : same_decisions (deref p) (deref p).
Proof. destruct p; [apply sd_ret | apply sd_panic]. Qed.

Lemma sd_emit e : same_decisions (emit e) (emit e).
Proof. by intros h1 h2. Qed.

(** A read answers the same on both sides. *)
Lemma sd_read {A} e (a1 a2 : A) :
  a1 = a2 → same_decisions (call e (λ _, a1)) (call e (λ _, a2)).
Proof. by intros -> h1 h2. Qed.

Lemma sd_bind {A B} (m1 m2 : M A) (k1 k2 : A → M B) :
  same_decisions m1 m2 → (∀ a, same_decisions (k1 a) (k2 a)) →
  same_decisions (bind m1 k1) (bind m2 k2).
Proof.
  intros Hm Hk h1 h2. unfold bind. destruct (Hm h1 h2) as [Hd Hr].
  destruct (m1 h1) as [e1 r1], (m2 h2) as [e2 r2]. simpl in *. subst r2.
  destruct r1 as [a|]; [|done].
  destruct (Hk a (h1 ++ e1) (h2 ++ e2)) as [Hd' Hr'].
  destruct (k1 a (h1 ++ e1)) as [e1' r1'], (k2 a (h2 ++ e2)) as [e2' r2'].
  simpl in *. by rewrite !decisions_app, Hd, Hd'.
Qed.

(** A mutator may answer differently on the two sides, when what follows
    takes the same decisions for all answers. *)
Lemma sd_mutate {A B} e (f1 f2 : list Event → A) (k1 k2 : A → M B) :
  (∀ a1 a2, same_decisions (k1 a1) (k2 a2)) →
  same_decisions (bind (call e f1) k1) (bind (call e f2) k2).
Proof.
  intros Hk h1 h2. unfold bind, call.
  destruct (Hk (f1 h1) (f2 h2) (h1 ++ [e]) (h2 ++ [e])) as [Hd Hr].
  destruct (k1 _ _) as [e1' r1'], (k2 _ _) as [e2' r2']. simpl in *.
  by rewrite Hd, Hr.
Qed.

Lemma sd_range {A} (l : list A) (b1 b2 : A → M unit) :
  (∀ x, same_decisions (b1 x) (b2 x)) →
  same_decisions (range l b1) (range l b2).
Proof.
  intros Hb. induction l as [|x l IH]; simpl.
  - apply sd_ret.
  - by apply sd_bind.
Qed.


Lemma sd_Until (f1 f2 : M unit) n :
  same_decisions f1 f2 → same_decisions (Until f1 n) (Until f2 n).
Proof.
  intros Hf. induction n as [|n IH]; simpl.
  - apply sd_ret.
  - by apply sd_bind.
Qed.

Section SameDecisions.
Context {constants : Constants} {conversion : Conversion}.
Variables c1 c2 : controller.
Hypothesis Hreads : same_reads c1 c2.

Lemma checkVNamespace_same_decisions clusterName vNamespace :
  same_decisions (checkVNamespace c1 clusterName vNamespace)
                 (checkVNamespace c2 clusterName vNamespace).
Proof.
  destruct Hreads as (_ & _ & _ & _ & Hget).
  unfold checkVNamespace. apply sd_bind; [by apply sd_read|].
  intros [pNamespace err]. destruct (IsNotFound err).
  - apply sd_mutate. intros [e1|] [e2|]; by intros h1 h2.
  - apply sd_bind; [destruct err; apply sd_emit || apply sd_ret|intros _].
    apply sd_bind; [apply sd_deref|intros p].
    case_bool_decide; [apply sd_emit|apply sd_ret].
Qed.

Lemma checkNamespacesOfTenantCluster_same_decisions clusterName :
  same_decisions (checkNamespacesOfTenantCluster c1 clusterName)
                 (checkNamespacesOfTenantCluster c2 clusterName).
Proof.
  destruct Hreads as (_ & Hlist & _).
  unfold checkNamespacesOfTenantCluster. apply sd_bind; [by apply sd_read|].
  intros [listObj [e|]]; [apply sd_emit|].
  apply sd_bind; [apply sd_emit|intros _].
  apply sd_bind; [apply sd_deref|intros namespaceList].
  apply sd_range. intros. apply checkVNamespace_same_decisions.
Qed.



End SameDecisions.

(** ** The order of the tenant goroutines *)

Lemma interleaving_Permutation ts evs : interleaving ts evs → evs ≡ₚ concat ts.
Proof.
  induction 1 as [ts Hnil|ts1 e t ts2 evs _ IH].
  - induction Hnil as [|t ts -> _ IH]; [done|]. simpl. apply IH.
  - rewrite concat_app in *. simpl in *. rewrite IH.
    by rewrite <- Permutation_middle.
Qed.

Section Schedule.
Context {constants : Constants} {conversion : Conversion}.
Variable c : controller.

Lemma same_reads_refl : same_reads c c.
Proof. by repeat split. Qed.

(** The decisions of the scan of a tenant do not depend on what happened
    before. *)
Lemma tenant_decisions clusterName h :
  decisions (checkNamespacesOfTenantCluster c clusterName h).1 =
    tenantDecisions c clusterName.
Proof.
  apply (checkNamespacesOfTenantCluster_same_decisions c c same_reads_refl).
Qed.

Lemma tenantTraces_decisions clusterNames hs :
  length hs = length clusterNames →
  decisions (concat (tenantTraces c clusterNames hs)) =
    concat (tenantDecisions c <$> clusterNames).
Proof.
  revert hs. induction clusterNames as [|cl cls IH]; intros [|h hs] [=]; [done|].
  simpl. rewrite decisions_app, tenant_decisions. f_equal. by apply IH.
Qed.

Lemma checkTenantClusters_decisions clusterNames h evs :
  checkTenantClusters c clusterNames h = (evs, Ret tt) →
  decisions evs = concat (tenantDecisions c <$> clusterNames).
Proof.
  unfold checkTenantClusters. revert h evs.
  induction clusterNames as [|cl cls IH]; intros h evs; simpl.
  - by intros [= <-].
  - intros (e1 & [] & e2 & H1 & H2 & ->)%bind_Ret_inv.
    rewrite decisions_app. f_equal; [|by eapply IH].
    change e1 with (e1, Ret ()).1. rewrite <- H1. apply tenant_decisions.
Qed.

(** However the goroutines of lines 64-71 interleave, and whatever each
    of them finds done before it, together they take the decisions of the
    scans run one after the other. *)
Lemma checkTenantClusters_any_schedule clusterNames hs evs h :
  length hs = length clusterNames →
  interleaving (tenantTraces c clusterNames hs) evs →
  (checkTenantClusters c clusterNames h).2 = Ret tt →
  decisions evs ≡ₚ decisions (checkTenantClusters c clusterNames h).1.
Proof.
  intros Hlen Hint Hret.
  destruct (checkTenantClusters c clusterNames h) as [evs' r] eqn:Hrun.
  simpl in *. subst r.
  rewrite (checkTenantClusters_decisions _ _ _ Hrun).
  rewrite <- (tenantTraces_decisions _ hs Hlen).
  unfold decisions. by rewrite (interleaving_Permutation _ _ Hint).
Qed.

End Schedule.

(** ** Counting the deletes of a check *)

Section Counting.
Context {constants : Constants} {conversion : Conversion}.
Variable c : controller.

Lemma checkPNamespace_tally_other pNamespace h name :
  Name pNamespace ≠ name →
  tally (is_delete_of name) (checkPNamespace c pNamespace h).1 = 0.
Proof.
  intros Hne. apply tally_none.
  eapply Forall_impl; [apply checkPNamespace_delete_of|].
  intros [] He; simpl; try done.
  apply bool_decide_eq_false_2. intros ->.
  by destruct (He _ _ eq_refl) as [-> _].
Qed.

Lemma checkTenantClusters_tally_delete clusterNames h name :
  tally (is_delete_of name) (checkTenantClusters c clusterNames h).1 = 0.
Proof.
  apply tally_none.
  eapply Forall_impl; [apply checkTenantClusters_not_delete|].
  intros [] He; simpl; try done. by destruct (He name0 opts).
Qed.

(** In a list of namespaces with distinct names, the others have another
    name. *)
Lemma split_by_name (pNamespaces : list Namespace) pNamespace :
  NoDup (Name <$> pNamespaces) → pNamespace ∈ pNamespaces →
  ∃ l1 l2, pNamespaces = l1 ++ pNamespace :: l2 ∧
           ∀ y, y ∈ l1 ++ l2 → Name y ≠ Name pNamespace.
Proof.
  intros Hnd (l1 & l2 & ->)%list_elem_of_split. exists l1, l2. split; [done|].
  rewrite fmap_app, fmap_cons in Hnd.
  apply NoDup_app in Hnd as (_ & Hl1 & Hl2%NoDup_cons).
  destruct Hl2 as [Hl2 _].
  intros y [Hy|Hy]%elem_of_app Heq.
  - apply (Hl1 (Name y)); [by apply list_elem_of_fmap_2|].
    rewrite Heq. left.
  - apply Hl2. rewrite <- Heq. by apply list_elem_of_fmap_2.
Qed.

End Counting.

(** ** Further properties of the checker *)

Lemma deferred_fst (d body : M unit) h :
  (deferred d body h).1 = (body h).1 ++ (d (h ++ (body h).1)).1.
Proof.
  unfold deferred. destruct (body h) as [e1 [[]|]]; simpl;
    by destruct (d (h ++ e1)).
Qed.

Lemma deferred_snd (d body : M unit) h :
  (∀ h', (d h').2 = Ret tt) → (deferred d body h).2 = (body h).2.
Proof.
  intros Hd. unfold deferred. destruct (body h) as [e1 [[]|]]; simpl.
  - specialize (Hd (h ++ e1)). by destruct (d (h ++ e1)).
  - by destruct (d (h ++ e1)).
Qed.

Lemma bind_snd {A B} (m : M A) (k : A → M B) h :
  (bind m k h).2 =
    match (m h).2 with Ret a => (k a (h ++ (m h).1)).2 | Panic => Panic end.
Proof.
  unfold bind. destruct (m h) as [e1 [a|]]; simpl; [|done].
  by destruct (k a (h ++ e1)).
Qed.

(** A loop returns when the bodies of its elements return. *)
Lemma range_returns {A} (l : list A) (body : A → M unit) h :
  (∀ x h', x ∈ l → (body x h').2 = Ret tt) → (range l body h).2 = Ret tt.
Proof.
  revert h. induction l as [|x l IH]; intros h Hb; [done|].
  simpl. rewrite bind_snd, Hb by left.
  apply IH. intros y h' Hy. apply Hb. by right.
Qed.

(** A loop panics when the body of one of its elements panics. *)
Lemma range_panics {A} (l : list A) (body : A → M unit) h x :
  x ∈ l → (∀ h', (body x h').2 = Panic) → (range l body h).2 = Panic.
Proof.
  revert h. induction l as [|y l IH]; intros h Hin Hx.
  - by apply elem_of_nil in Hin.
  - simpl. rewrite bind_snd. apply elem_of_cons in Hin as [<-|Hin].
    + by rewrite Hx.
    + destruct (body y h).2; [by apply IH|done].
Qed.

(** In a loop that returns, the body of each element has returned, and
    what it added is in the trace of the loop. *)
Lemma range_Ret_elem {A} (l : list A) (body : A → M unit) h evs x :
  range l body h = (evs, Ret tt) → x ∈ l →
  ∃ h' ex, body x h' = (ex, Ret tt) ∧ ∀ e, e ∈ ex → e ∈ evs.
Proof.
  intros Hrun (l1 & l2 & ->)%list_elem_of_split.
  rewrite range_app in Hrun.
  apply bind_Ret_inv in Hrun as (e1 & [] & e23 & _ & Hr23 & ->).
  simpl in Hr23.
  apply bind_Ret_inv in Hr23 as (e2 & [] & e3 & Hr2 & _ & ->).
  exists (h ++ e1), e2. split; [done|].
  intros e He. rewrite !elem_of_app. by right; left.
Qed.

Lemma emits_bind_panic {A B} Q (k : A → M B) : emits Q (bind panic k).
Proof. intros h. by apply Forall_nil. Qed.

Lemma emits_bind_ret {A B} Q (a : A) (k : A → M B) :
  emits Q (k a) → emits Q (bind (ret a) k).
Proof.
  intros Hk h. unfold bind, ret. specialize (Hk (h ++ [])).
  by destruct (k a (h ++ [])).
Qed.

(** One goal for each event of an evaluated trace. *)
Ltac each_event :=
  repeat (apply Forall_cons; split); try (by apply Forall_nil).

Section Justified.
Context {constants : Constants} {conversion : Conversion}.
Variable c : controller.

Lemma checkPNamespace_justified pNamespace :
  pNamespace ∈ (NamespaceLister.List (nsLister c)).1 →
  emits (justified_delete c) (checkPNamespace c pNamespace).
Proof.
  intros Hin h. unfold checkPNamespace.
  destruct (GetVirtualOwner pNamespace) as [cl vn] eqn:Hown.
  destruct cl as [|a cl]; [by constructor|].
  destruct vn as [|b vn]; [by constructor|].
  simpl. unfold bind, call.
  destruct (MultiClusterController.Get _ _ _ _) as [vObj err] eqn:Hget.
  assert (IsNotFound err = true ∨
          (∃ vNs, (vObj, err) = (Some vNs, None) ∧
                  annotation pNamespace LabelUID ≠ UID vNs) →
          justified_delete c (EvDelete (Name pNamespace) (deleteOptions pNamespace)))
    as Hdel.
  { intros Hwhy name opts [= <- <-].
    exists pNamespace, (String a cl), (String b vn).
    repeat split; [done..|]. by rewrite Hget. }
  destruct err as [e|].
  - simpl. destruct (IsNotFound (Some e)) eqn:Hnf; simpl.
    + destruct (NamespaceInterface.Delete _ _ _ _); simpl;
        repeat constructor; try (by intros ?? [=]); apply Hdel; by left.
    + repeat constructor. by intros ?? [=].
  - destruct vObj as [vNs|]; simpl; [|repeat constructor; by intros ?? [=]].
    case_bool_decide as Hne; simpl.
    + destruct (NamespaceInterface.Delete _ _ _ _); simpl;
        repeat constructor; try (by intros ?? [=]); apply Hdel; right; eauto.
    + repeat constructor. by intros ?? [=].
Qed.

Lemma not_delete_justified e : not_delete e → justified_delete c e.
Proof. intros He name opts ->. by destruct (He name opts). Qed.

Lemma checkNamespaces_justified_delete :
  emits (justified_delete c) (checkNamespaces c).
Proof.
  unfold checkNamespaces.
  apply emits_bind; [apply emits_call; by intros ??|]. intros clusterNames.
  destruct (_ =? _)%nat; [apply emits_emit; by intros ??|].
  apply emits_bind.
  { eapply emits_mono; [apply not_delete_justified|].
    apply checkTenantClusters_not_delete. }
  intros _. apply emits_deferred; [apply emits_emit; by intros ??|].
  unfold checkPNamespaces.
  destruct (NamespaceLister.List (nsLister c)) as [pNamespaces err] eqn:Hlist.
  apply emits_read; [by intros ??|].
  destruct err; [apply emits_emit; by intros ??|].
  apply emits_range. intros pNamespace Hin.
  apply checkPNamespace_justified. by rewrite Hlist.
Qed.

(** The requeues of the tenant-side body are requeues of its own
    namespace, not found in the super master cache. *)
Lemma checkVNamespace_justified clusterName vNamespace :
  emits (λ e, ∀ cl obj, e = EvRequeueObject cl obj →
           cl = clusterName ∧ obj = vNamespace ∧
           IsNotFound (NamespaceLister.Get (nsLister c)
                         (ToSuperMasterNamespace clusterName (Name vNamespace))).2 = true)
        (checkVNamespace c clusterName vNamespace).
Proof.
  intros h. unfold checkVNamespace, bind, call.
  destruct (NamespaceLister.Get _ _) as [p err]. simpl.
  destruct (IsNotFound err) eqn:Hnf; simpl.
  - destruct (MultiClusterController.RequeueObject _ _ _ _); simpl;
      each_event; try (by intros ?? [=]); by intros ?? [= <- <-].
  - destruct err, p; simpl; try case_bool_decide; simpl;
      each_event; by intros ?? [=].
Qed.

Lemma checkNamespacesOfTenantCluster_justified clusterName :
  clusterName ∈ MultiClusterController.GetClusterNames
                  (multiClusterNamespaceController c) →
  emits (justified_requeue c) (checkNamespacesOfTenantCluster c clusterName).
Proof.
  intros Hcl. unfold checkNamespacesOfTenantCluster.
  destruct (MultiClusterController.List _ _) as [listObj err] eqn:Hlist.
  apply emits_read; [by intros ??|].
  destruct err; [apply emits_emit; by intros ??|].
  apply emits_bind; [apply emits_emit; by intros ??|]. intros _.
  destruct listObj as [namespaceList|]; simpl.
  2:{ apply emits_bind_panic. }
  apply emits_bind_ret. apply emits_range. intros vNamespace Hin.
  eapply emits_mono; [|apply checkVNamespace_justified].
  intros e He cl obj Heq. destruct (He cl obj Heq) as (-> & -> & Hnf).
  split; [done|]. split; [|done]. by exists (Some namespaceList), namespaceList.
Qed.

Lemma not_requeue_justified e :
  (∀ cl obj, e ≠ EvRequeueObject cl obj) → justified_requeue c e.
Proof. intros He cl obj ->. by destruct (He cl obj). Qed.

Lemma checkPNamespace_not_requeue pNamespace :
  emits (λ e, ∀ cl obj, e ≠ EvRequeueObject cl obj) (checkPNamespace c pNamespace).
Proof. unfold checkPNamespace. repeat emits_step; by intros ??. Qed.

Lemma checkNamespaces_justified_requeue :
  emits (justified_requeue c) (checkNamespaces c).
Proof.
  unfold checkNamespaces.
  apply emits_read; [by intros ??|].
  destruct (_ =? _)%nat; [apply emits_emit; by intros ??|].
  apply emits_bind.
  { apply emits_range. intros clusterName Hin.
    by apply checkNamespacesOfTenantCluster_justified. }
  intros _. apply emits_deferred; [apply emits_emit; by intros ??|].
  unfold checkPNamespaces.
  apply emits_bind; [apply emits_call; by intros ??|].
  intros [pNamespaces [e|]]; [apply emits_emit; by intros ??|].
  apply emits_range. intros pNamespace _.
  eapply emits_mono; [apply not_requeue_justified|].
  apply checkPNamespace_not_requeue.
Qed.

(** *** When a scan panics *)

Lemma checkVNamespace_nilLookup clusterName vNamespace h :
  nilLookup c clusterName vNamespace →
  (checkVNamespace c clusterName vNamespace h).2 = Panic.
Proof.
  unfold nilLookup, checkVNamespace, bind, call.
  destruct (NamespaceLister.Get _ _) as [p err]. simpl. intros [-> ->].
  by destruct err.
Qed.

Lemma checkVNamespace_Panic_inv clusterName vNamespace h :
  (checkVNamespace c clusterName vNamespace h).2 = Panic →
  nilLookup c clusterName vNamespace.
Proof.
  unfold nilLookup, checkVNamespace, bind, call.
  destruct (NamespaceLister.Get _ _) as [p err]. simpl.
  destruct (IsNotFound err); simpl.
  - by destruct (MultiClusterController.RequeueObject _ _ _ _).
  - destruct err, p; simpl; try case_bool_decide; by simpl.
Qed.

Lemma checkPNamespace_returns pNamespace h :
  (∀ clusterName namespace name,
     let answer := MultiClusterController.Get
                     (multiClusterNamespaceController c) clusterName namespace name in
     answer.2 = None → is_Some answer.1) →
  (checkPNamespace c pNamespace h).2 = Ret tt.
Proof.
  intros Hget. unfold checkPNamespace.
  destruct (GetVirtualOwner pNamespace) as [cl vn].
  destruct (_ || _); [done|]. unfold bind, call.
  specialize (Hget cl "" vn). simpl in Hget.
  destruct (MultiClusterController.Get _ _ _ _) as [vObj err]. simpl in *.
  destruct err as [e|]; simpl.
  - destruct (IsNotFound (Some e)); simpl; [|done].
    by destruct (NamespaceInterface.Delete _ _ _ _).
  - destruct (Hget eq_refl) as [vNs ->]. simpl.
    case_bool_decide; simpl; [|done].
    by destruct (NamespaceInterface.Delete _ _ _ _).
Qed.

End Justified.

(** A loop that panics has an element whose body panics. *)
Lemma range_Panic_inv {A} (l : list A) (body : A → M unit) h :
  (range l body h).2 = Panic → ∃ x h', x ∈ l ∧ (body x h').2 = Panic.
Proof.
  revert h. induction l as [|x l IH]; intros h; [done|].
  simpl. rewrite bind_snd. destruct (body x h).2 eqn:Hx.
  - intros (y & h' & Hy & Hp)%IH. exists y, h'. split; [by right|done].
  - intros _. exists x, h. split; [left|done].
Qed.

Lemma Until_returns (f : M unit) n h :
  (∀ h', (f h').2 = Ret tt) → (Until f n h).2 = Ret tt.
Proof.
  intros Hf. revert h. induction n as [|n IH]; intros h; [done|].
  simpl. by rewrite bind_snd, Hf.
Qed.

(** *** Properties of traces that add up *)

Section Adds.
Variable P : list Event → Prop.
Hypothesis P_nil : P [].
Hypothesis P_app : ∀ t1 t2, P t1 → P t2 → P (t1 ++ t2).

Lemma adds_ret {A} (a : A) : adds P (ret a).
Proof. by intros h. Qed.

Lemma adds_bind {A B} (m : M A) (k : A → M B) :
  adds P m → (∀ a, adds P (k a)) → adds P (bind m k).
Proof.
  intros Hm Hk h. rewrite bind_fst. apply P_app; [apply Hm|].
  destruct (m h).2; [apply Hk|apply P_nil].
Qed.

Lemma adds_range {A} (l : list A) (body : A → M unit) :
  (∀ x, adds P (body x)) → adds P (range l body).
Proof.
  intros Hb. induction l as [|x l IH]; simpl; [apply adds_ret|].
  by apply adds_bind.
Qed.

Lemma adds_deferred (d body : M unit) :
  adds P d → adds P body → adds P (deferred d body).
Proof. intros Hd Hb h. rewrite deferred_fst. by apply P_app. Qed.

End Adds.

Lemma accounted_nil : accounted [].
Proof. done. Qed.

Lemma accounted_app t1 t2 : accounted t1 → accounted t2 → accounted (t1 ++ t2).
Proof. unfold accounted. rewrite !tally_app. lia. Qed.

Section Accounting.
Context {constants : Constants} {conversion : Conversion}.
Variable c : controller.

Lemma checkVNamespace_accounted clusterName vNamespace :
  adds accounted (checkVNamespace c clusterName vNamespace).
Proof.
  intros h. unfold checkVNamespace, bind, call.
  destruct (NamespaceLister.Get _ _) as [p err]. simpl.
  destruct (IsNotFound err); simpl.
  - by destruct (MultiClusterController.RequeueObject _ _ _ _).
  - destruct err, p; simpl; try case_bool_decide; by simpl.
Qed.

Lemma checkNamespacesOfTenantCluster_accounted clusterName :
  adds accounted (checkNamespacesOfTenantCluster c clusterName).
Proof.
  unfold checkNamespacesOfTenantCluster.
  apply adds_bind; [done|apply accounted_app|done|].
  intros [listObj [e|]]; [done|].
  apply adds_bind; [done|apply accounted_app|done|]. intros _.
  apply adds_bind; [done|apply accounted_app|by destruct listObj|].
  intros namespaceList.
  apply adds_range; [done|apply accounted_app|].
  apply checkVNamespace_accounted.
Qed.

Lemma checkPNamespace_accounted pNamespace :
  adds accounted (checkPNamespace c pNamespace).
Proof.
  intros h. unfold checkPNamespace.
  destruct (GetVirtualOwner pNamespace) as [cl vn].
  destruct (_ || _); [done|]. unfold bind, call.
  destruct (MultiClusterController.Get _ _ _ _) as [vObj err]. simpl.
  destruct err as [e|]; simpl.
  - destruct (IsNotFound (Some e)); simpl; [|done].
    by destruct (NamespaceInterface.Delete _ _ _ _).
  - destruct vObj as [vNs|]; simpl; [|done].
    case_bool_decide; simpl; [|done].
    by destruct (NamespaceInterface.Delete _ _ _ _).
Qed.

Lemma checkNamespaces_accounted : adds accounted (checkNamespaces c).
Proof.
  unfold checkNamespaces.
  apply adds_bind; [done|apply accounted_app|done|]. intros clusterNames.
  destruct (_ =? _)%nat; [done|].
  apply adds_bind; [done|apply accounted_app| |].
  { apply adds_range; [done|apply accounted_app|].
    apply checkNamespacesOfTenantCluster_accounted. }
  intros _. apply adds_deferred; [apply accounted_app|done|].
  unfold checkPNamespaces.
  apply adds_bind; [done|apply accounted_app|done|].
  intros [pNamespaces [e|]]; [done|].
  apply adds_range; [done|apply accounted_app|].
  apply checkPNamespace_accounted.
Qed.

Lemma checkNamespaces_checker_label : emits checker_label (checkNamespaces c).
Proof.
  unfold checkNamespaces.
  apply emits_bind; [apply emits_call; by intros ??|]. intros clusterNames.
  destruct (_ =? _)%nat; [apply emits_emit; by intros ??|].
  apply emits_bind.
  { apply emits_range. intros cl _. unfold checkNamespacesOfTenantCluster.
    repeat emits_step; try by intros ??.
    apply emits_range. intros v _. unfold checkVNamespace.
    repeat emits_step; try by intros ??. intros ? [= <-]. by left. }
  intros _. apply emits_deferred; [apply emits_emit; by intros ??|].
  unfold checkPNamespaces.
  apply emits_bind; [apply emits_call; by intros ??|].
  intros [pNamespaces [e|]]; [apply emits_emit; by intros ??|].
  apply emits_range. intros p _. unfold checkPNamespace.
  repeat emits_step; try by intros ??. all: intros ? [= <-]; by right.
Qed.

End Accounting.

Lemma quiet_decisions t : Forall (λ e, quiet e = true) t → decisions t = [].
Proof.
  induction 1 as [|e t He _ IH]; [done|].
  change (e :: t) with ([e] ++ t). rewrite decisions_app, IH.
  by destruct e as [| | | | | | |[] []| |].
Qed.

Lemma quiet_counter label t :
  Forall (λ e, quiet e = true) t → CheckerRemedyStats label t = 0.
Proof.
  intros Hq. apply tally_none. eapply Forall_impl; [done|].
  by intros [].
Qed.

(** What follows a computation that takes no decision and returns takes
    the decisions of the whole. *)
Lemma sd_skip (m k k' : M unit) :
  (∀ h, decisions (m h).1 = [] ∧ (m h).2 = Ret tt) →
  same_decisions k k' → same_decisions (m ;; k) k'.
Proof.
  intros Hm Hk h1 h2. rewrite bind_fst, bind_snd, decisions_app.
  destruct (Hm h1) as [-> ->]. apply Hk.
Qed.

(** A loop adds at most one event that counts for each of its elements
    that satisfies [P], when the bodies do. *)
Lemma tally_range_filter {A} f (P : A → Prop) `{!∀ x, base.Decision (P x)}
    (l : list A) (body : A → M unit) h :
  (∀ x h', (tally f (body x h').1 ≤ if decide (P x) then 1 else 0)%nat) →
  (tally f (range l body h).1 ≤ length (filter P l))%nat.
Proof.
  intros Hb. revert h. induction l as [|x l IH]; intros h; [done|].
  simpl. rewrite bind_fst, tally_app, filter_cons.
  specialize (Hb x h).
  assert (tally f (match (body x h).2 with
                   | Ret _ => (range l body (h ++ (body x h).1)).1
                   | Panic => []
                   end) ≤ length (filter P l))%nat as Hrest.
  { destruct (body x h).2; [apply IH|]. rewrite tally_nil. lia. }
  destruct (decide (P x)); simpl; lia.
Qed.

Section Quiet.
Context {constants : Constants} {conversion : Conversion}.
Variable c : controller.

Lemma consistentTenant_quiet clusterName :
  consistentTenant c clusterName →
  emits (λ e, quiet e = true) (checkNamespacesOfTenantCluster c clusterName) ∧
  ∀ h, (checkNamespacesOfTenantCluster c clusterName h).2 = Ret tt.
Proof.
  intros (namespaceList & Hlist & Hall).
  assert (∀ v h, v ∈ namespaceList →
            checkVNamespace c clusterName v h =
              ([EvGetSuper (ToSuperMasterNamespace clusterName (Name v))], Ret tt))
    as Hbody.
  { intros v h (p & Hget & Heq)%Hall.
    rewrite (checkVNamespace_found c _ _ h _ Hget).
    rewrite bool_decide_eq_false_2; [done|]. by intros []. }
  unfold checkNamespacesOfTenantCluster. rewrite Hlist. split.
  - apply emits_read; [done|]. apply emits_bind; [by apply emits_emit|].
    intros _. apply emits_bind_ret. apply emits_range. intros v Hin h.
    rewrite Hbody by done. by each_event.
  - intros h. rewrite bind_snd. simpl. rewrite bind_snd. simpl.
    rewrite bind_snd. simpl. apply range_returns.
    intros v h' Hin. by rewrite Hbody.
Qed.

Lemma consistentSuper_quiet :
  consistentSuper c →
  emits (λ e, quiet e = true) (checkPNamespaces c) ∧
  ∀ h, (checkPNamespaces c h).2 = Ret tt.
Proof.
  intros (pNamespaces & Hlist & Hall).
  assert (∀ p h, p ∈ pNamespaces →
            (checkPNamespace c p h).2 = Ret tt ∧
            Forall (λ e, quiet e = true) (checkPNamespace c p h).1) as Hbody.
  { intros p h Hin. specialize (Hall p Hin).
    destruct (GetVirtualOwner p) as [cl vn] eqn:Hown. simpl in Hall.
    destruct (decide (cl = "")) as [->|Hcl].
    { rewrite checkPNamespace_no_owner; [by split|]. rewrite Hown. by left. }
    destruct (decide (vn = "")) as [->|Hvn].
    { rewrite checkPNamespace_no_owner; [by split|]. rewrite Hown. by right. }
    destruct Hall as [?|[?|(vNs & Hget & Heq)]]; [done..|].
    rewrite (checkPNamespace_match c _ h _ _ _ Hown Hcl Hvn Hget Heq).
    split; [done|]. by each_event. }
  unfold checkPNamespaces. rewrite Hlist. split.
  - apply emits_read; [done|]. apply emits_range. intros p Hin h.
    by apply Hbody.
  - intros h. rewrite bind_snd. simpl. apply range_returns.
    intros p h' Hin. by apply Hbody.
Qed.

Lemma checkPNamespace_deletes_once pNamespace name h :
  (tally (is_delete_of name) (checkPNamespace c pNamespace h).1
   ≤ if decide (Name pNamespace = name) then 1 else 0)%nat.
Proof.
  destruct (decide _) as [<-|Hne].
  2:{ by rewrite checkPNamespace_tally_other. }
  unfold checkPNamespace.
  destruct (GetVirtualOwner pNamespace) as [cl vn].
  destruct (_ || _); [simpl; rewrite tally_nil; lia|]. unfold bind, call.
  destruct (MultiClusterController.Get _ _ _ _) as [vObj err]. simpl.
  destruct err as [e|]; simpl.
  - destruct (IsNotFound (Some e)); simpl.
    + destruct (NamespaceInterface.Delete _ _ _ _); simpl;
        rewrite !tally_cons, tally_nil, is_delete_of_refl; simpl; lia.
    + rewrite !tally_cons, tally_nil. simpl. lia.
  - destruct vObj as [vNs|]; simpl; [|rewrite !tally_cons, tally_nil; simpl; lia].
    case_bool_decide; simpl.
    + destruct (NamespaceInterface.Delete _ _ _ _); simpl;
        rewrite !tally_cons, tally_nil, is_delete_of_refl; simpl; lia.
    + rewrite !tally_cons, tally_nil. simpl. lia.
Qed.

Lemma checkNamespaces_not_record_before :
  emits (λ e, is_record e = false) (checkTenantClusters c
    (MultiClusterController.GetClusterNames (multiClusterNamespaceController c))) ∧
  emits (λ e, is_record e = false) (checkPNamespaces c).
Proof.
  split.
  - apply emits_range. intros cl _. unfold checkNamespacesOfTenantCluster.
    repeat emits_step; try done.
    apply emits_range. intros v _. unfold checkVNamespace.
    by repeat emits_step.
  - unfold checkPNamespaces. apply emits_bind; [by apply emits_call|].
    intros [pNamespaces [e|]]; [by apply emits_emit|].
    apply emits_range. intros p _. unfold checkPNamespace.
    by repeat emits_step.
Qed.

End Quiet.

(** *** Where the body of a listed element runs *)

(** In a loop that returns, the body of each element has run, after what
    the elements before it added. *)
Lemma range_Ret_split {A} (l : list A) (body : A → M unit) h evs x :
  range l body h = (evs, Ret tt) → x ∈ l →
  ∃ before after,
    evs = before ++ (body x (h ++ before)).1 ++ after ∧
    (body x (h ++ before)).2 = Ret tt.
Proof.
  intros Hrun (l1 & l2 & ->)%list_elem_of_split.
  rewrite range_app in Hrun.
  apply bind_Ret_inv in Hrun as (e1 & [] & e23 & _ & Hr23 & ->).
  simpl in Hr23.
  apply bind_Ret_inv in Hr23 as (e2 & [] & e3 & Hr2 & _ & ->).
  exists e1, e3. by rewrite Hr2.
Qed.


Section Listed.
Context {constants : Constants} {conversion : Conversion}.
Variable c : controller.

(** In a check that returns, the body of lines 79-108 has run for every
    namespace listed from the super master cache. *)
Lemma checkNamespaces_Ret_super h pNamespaces pNamespace :
  (checkNamespaces c h).2 = Ret tt →
  MultiClusterController.GetClusterNames (multiClusterNamespaceController c) ≠ [] →
  NamespaceLister.List (nsLister c) = (pNamespaces, None) →
  pNamespace ∈ pNamespaces →
  ∃ before after,
    (checkNamespaces c h).1 =
      before ++ (checkPNamespace c pNamespace (h ++ before)).1 ++ after.
Proof.
  intros Hret Hnames Hlist Hin.
  destruct (checkNamespaces c h) as [evs r] eqn:Hrun. simpl in *. subst r.
  unfold checkNamespaces in Hrun.
  apply bind_Ret_inv in Hrun as (e0 & clusterNames & e1 & Hcall & Hrun & ->).
  injection Hcall as <- <-.
  destruct (MultiClusterController.GetClusterNames _) as [|cl cls]; [done|].
  simpl in Hrun.
  apply bind_Ret_inv in Hrun as (et & [] & eo & _ & Ho & ->).
  apply deferred_Ret_inv in Ho as (ep & er & Hp & _ & ->).
  unfold checkPNamespaces in Hp.
  apply bind_Ret_inv in Hp as (el & lst & es & Hl & Hs & ->).
  injection Hl as <- <-. rewrite Hlist in Hs.
  destruct (range_Ret_split _ _ _ _ _ Hs Hin) as (before & after & -> & _).
  exists ([EvGetClusterNames] ++ et ++ [EvListSuper] ++ before), (after ++ er).
  by rewrite <- !(assoc_L (++)).
Qed.

(** In a check that returns, the body of lines 120-140 has run for every
    namespace that a tenant cluster lists. *)
Lemma checkNamespaces_Ret_tenant h clusterName namespaceList vNamespace :
  (checkNamespaces c h).2 = Ret tt →
  clusterName ∈ MultiClusterController.GetClusterNames
                  (multiClusterNamespaceController c) →
  MultiClusterController.List (multiClusterNamespaceController c) clusterName =
    (Some namespaceList, None) →
  vNamespace ∈ namespaceList →
  ∃ before after,
    (checkNamespaces c h).1 =
      before ++ (checkVNamespace c clusterName vNamespace (h ++ before)).1 ++ after.
Proof.
  intros Hret Hcl Hlist Hv.
  destruct (checkNamespaces c h) as [evs r] eqn:Hrun. simpl in *. subst r.
  unfold checkNamespaces in Hrun.
  apply bind_Ret_inv in Hrun as (e0 & clusterNames & e1 & Hcall & Hrun & ->).
  injection Hcall as <- <-.
  destruct (MultiClusterController.GetClusterNames _) as [|cl cls] eqn:Hnames;
    [by apply elem_of_nil in Hcl|].
  simpl in Hrun.
  apply bind_Ret_inv in Hrun as (et & [] & eo & Ht & _ & ->).
  destruct (range_Ret_split _ _ _ _ _ Ht Hcl) as (b1 & a1 & -> & Hscan).
  destruct (checkNamespacesOfTenantCluster c clusterName _) as [ex rx] eqn:Hrun.
  simpl in Hscan. subst rx. simpl.
  unfold checkNamespacesOfTenantCluster in Hrun.
  apply bind_Ret_inv in Hrun as (el & lst & es & Hl & Hs & ->).
  injection Hl as <- <-. rewrite Hlist in Hs.
  apply bind_Ret_inv in Hs as (elog & [] & es' & Hlog & Hs & ->).
  injection Hlog as <-.
  apply bind_Ret_inv in Hs as (enil & items & er & Hd & Hs & ->).
  injection Hd as <- <-.
  destruct (range_Ret_split _ _ _ _ _ Hs Hv) as (b2 & a2 & -> & _).
  exists ([EvGetClusterNames] ++ b1 ++
          [EvListVirtual clusterName;
           EvLog (SevInfoV 4) (MsgCheckCluster clusterName)] ++ b2),
         (a2 ++ a1 ++ eo).
  by rewrite <- !(assoc_L (++)).
Qed.

End Listed.

Section RequeueBound.
Context {constants : Constants} {conversion : Conversion}.
Variable c : controller.




End RequeueBound.

(** ** Properties of the checker *)

Section Claims.
Context {constants : Constants} {conversion : Conversion}.
Variable c : controller.

(** C1, as the code has it: every delete issued by a check is a delete of
    a namespace listed from the super master cache, and its precondition
    is the UID of that namespace itself, as the scan read it. *)
Theorem C1_delete_precondition_is_own_UID h name opts :
  EvDelete name opts ∈ (checkNamespaces c h).1 →
  ∃ pNamespace,
    pNamespace ∈ (NamespaceLister.List (nsLister c)).1 ∧
    Name pNamespace = name ∧
    PropagationPolicy opts = Some DefaultDeletionPolicy ∧
    DeletePreconditions opts = Some (NewUIDPreconditions (UID pNamespace)).
Proof.
  intros Hin.
  pose proof (checkNamespaces_listed_delete c h) as Hall.
  rewrite Forall_forall in Hall.
  destruct (Hall _ Hin name opts eq_refl) as (pNamespace & Hp & Hname & ->).
  by exists pNamespace.
Qed.



(** C5, as the code has it: when a namespace listed from the super master
    cache under a name of its own and the tenant namespace of its owner
    have different UIDs, a check over at least one tenant that returns
    issues exactly one delete of the namespace of the super master, and
    the scan of the super master issues it: the tenant scans issue no
    delete, and where a tenant scan finds the mismatch it looks the
    namespace up, logs the mismatch and goes on. *)
Theorem C5_mismatch_is_deleted_once pNamespace vNs h clusterName vNamespace pNamespaces :
  MultiClusterController.GetClusterNames (multiClusterNamespaceController c) ≠ [] →
  NamespaceLister.List (nsLister c) = (pNamespaces, None) →
  NoDup (Name <$> pNamespaces) →
  pNamespace ∈ pNamespaces →
  GetVirtualOwner pNamespace = (clusterName, vNamespace) →
  clusterName ≠ "" → vNamespace ≠ "" →
  MultiClusterController.Get (multiClusterNamespaceController c)
    clusterName "" vNamespace = (Some vNs, None) →
  annotation pNamespace LabelUID ≠ UID vNs →
  (checkNamespaces c h).2 = Ret tt →
  tally (is_delete_of (Name pNamespace)) (checkNamespaces c h).1 = 1 ∧
  (∀ clusterNames, emits not_delete (checkTenantClusters c clusterNames)) ∧
  (∀ cluster namespaceList v p,
     let target := ToSuperMasterNamespace cluster (Name v) in
     cluster ∈ MultiClusterController.GetClusterNames
                 (multiClusterNamespaceController c) →
     MultiClusterController.List (multiClusterNamespaceController c) cluster =
       (Some namespaceList, None) →
     v ∈ namespaceList →
     NamespaceLister.Get (nsLister c) target = (Some p, None) →
     annotation p LabelUID ≠ UID v →
     ∃ before after sev,
       let report := EvLog sev (MsgDelegatedUIDDiffers target) in
       (checkNamespaces c h).1 = before ++ [EvGetSuper target; report] ++ after ∧
       checkVNamespace c cluster v (h ++ before) =
         ([EvGetSuper target; report], Ret tt)).
Proof.
  intros Hnames Hlist Hnd Hin Hown Hcl Hvn Hget Hne Hret.
  split; [|split].
  - destruct (checkNamespaces c h) as [evs r] eqn:Hrun. simpl in *. subst r.
    unfold checkNamespaces in Hrun.
    apply bind_Ret_inv in Hrun as (e0 & clusterNames & e1 & Hcall & Hrun & ->).
    injection Hcall as <- <-.
    destruct (MultiClusterController.GetClusterNames _) as [|cl cls]; [done|].
    simpl in Hrun.
    apply bind_Ret_inv in Hrun as (et & [] & eo & Ht & Ho & ->).
    apply deferred_Ret_inv in Ho as (ep & er & Hp & Hr & ->).
    injection Hr as <-.
    unfold checkPNamespaces in Hp.
    apply bind_Ret_inv in Hp as (el & lst & es & Hl & Hs & ->).
    injection Hl as <- <-. rewrite Hlist in Hs.
    destruct (split_by_name _ _ Hnd Hin) as (l1 & l2 & -> & Hothers).
    rewrite !tally_app.
    assert (tally (is_delete_of (Name pNamespace)) et = 0) as ->.
    { change et with (et, Ret ()).1. rewrite <- Ht.
      apply (checkTenantClusters_tally_delete c (cl :: cls)). }
    assert (tally (is_delete_of (Name pNamespace)) es = 1) as ->; [|done].
    eapply tally_range_one; [apply Hs| |].
    + intros y h' Hy. apply checkPNamespace_tally_other. by apply Hothers.
    + intros h'.
      rewrite (checkPNamespace_mismatch c _ h' _ _ _ Hown Hcl Hvn Hget Hne).
      unfold deleteEvents. simpl.
      rewrite !tally_cons, is_delete_of_refl.
      by destruct (NamespaceInterface.Delete _ _ _ _).
  - intros clusterNames. apply checkTenantClusters_not_delete.
  - intros cluster namespaceList v p target Hcluster Hvlist Hv Hpget Hpne.
    destruct (checkNamespaces_Ret_tenant c h _ _ _ Hret Hcluster Hvlist Hv)
      as (before & after & Hrun).
    pose proof (checkVNamespace_found c _ _ (h ++ before) _ Hpget) as Hbody.
    rewrite bool_decide_eq_true_2 in Hbody by done.
    rewrite Hbody in Hrun. by exists before, after, SevError.
Qed.

(** C7: when there is no tenant cluster, the check only asks for the
    cluster names and logs: no tenant is scanned, the super master cache is
    not listed, no decision is taken, no counter changes, and the check
    returns. *)
Theorem C7_no_clusters_no_check h :
  MultiClusterController.GetClusterNames (multiClusterNamespaceController c) = [] →
  let evs := [EvGetClusterNames; EvLog SevInfo MsgNoClusters] in
  checkNamespaces c h = (evs, Ret tt) ∧
  decisions evs = [] ∧
  (EvListSuper ∉ evs) ∧
  (∀ clusterName, EvListVirtual clusterName ∉ evs) ∧
  ∀ l, CheckerRemedyStats l (h ++ evs) = CheckerRemedyStats l h.
Proof.
  intros Hnames evs. split; [|split; [done|split; [|split]]].
  - unfold checkNamespaces, bind, call. by rewrite Hnames.
  - unfold evs. rewrite !elem_of_cons, elem_of_nil. by intros [?|[?|?]].
  - intros cl. unfold evs. rewrite !elem_of_cons, elem_of_nil.
    by intros [?|[?|?]].
  - intros l. unfold CheckerRemedyStats.
    rewrite tally_app. unfold evs. rewrite !tally_cons, tally_nil. simpl. lia.
Qed.

(** C8: when the stop channel is closed before the caches have synced,
    [StartPeriodChecker] returns an error and no check is run; when the
    caches have synced, it runs the periodic loop of checks and, when the
    loop ends, returns no error. *)
Theorem C8_start_waits_for_sync stopCh h :
  (syncedBeforeStop stopCh = false →
     ∃ e, StartPeriodChecker c stopCh h = ([], Ret (Some e))) ∧
  (syncedBeforeStop stopCh = true →
     let loop := Until (checkNamespaces c) (periodsBeforeStop stopCh) h in
     (StartPeriodChecker c stopCh h).1 = loop.1 ∧
     (loop.2 = Ret tt → (StartPeriodChecker c stopCh h).2 = Ret None) ∧
     ∀ e, (StartPeriodChecker c stopCh h).2 ≠ Ret (Some e)).
Proof.
  unfold StartPeriodChecker. split; intros ->; simpl.
  - by eexists.
  - unfold bind, ret. destruct (Until _ _ _) as [evs [[]|]]; simpl.
    + by rewrite (right_id_L [] (++)).
    + done.
Qed.

(** C10: in a check that scans the super master and returns, a listed
    namespace with a valid owner and without delegated UID (the
    annotation is absent or empty), whose tenant namespace exists with a
    UID, is a mismatch: the scan looks the owner up, logs the warning and
    issues the delete. *)
Theorem C10_no_delegated_UID_is_mismatch
    pNamespaces pNamespace h clusterName vNamespace vNs :
  (checkNamespaces c h).2 = Ret tt →
  MultiClusterController.GetClusterNames (multiClusterNamespaceController c) ≠ [] →
  NamespaceLister.List (nsLister c) = (pNamespaces, None) →
  pNamespace ∈ pNamespaces →
  GetVirtualOwner pNamespace = (clusterName, vNamespace) →
  clusterName ≠ "" → vNamespace ≠ "" →
  Annotations pNamespace !! LabelUID = None ∨
    Annotations pNamespace !! LabelUID = Some "" →
  MultiClusterController.Get (multiClusterNamespaceController c)
    clusterName "" vNamespace = (Some vNs, None) →
  UID vNs ≠ "" →
  ∃ before after outcome,
    (checkNamespaces c h).1 =
      before ++
      [EvGetVirtual clusterName "" vNamespace;
       EvLog SevWarning (MsgDelegatedUIDDiffers (Name pNamespace));
       EvDelete (Name pNamespace) (deleteOptions pNamespace);
       outcome] ++ after ∧
    (outcome = EvCounterInc "numDeletedOrphanSuperMasterNamespaces" ∨
     ∃ e, outcome = EvLog SevError (MsgDeleteErr (Name pNamespace) e)).
Proof.
  intros Hret Hnames Hlist Hin Hown Hcl Hvn Hann Hget Huid.
  assert (annotation pNamespace LabelUID ≠ UID vNs) as Hne.
  { unfold annotation. by destruct Hann as [-> | ->]. }
  destruct (checkNamespaces_Ret_super c h _ _ Hret Hnames Hlist Hin)
    as (before & after & Hrun).
  rewrite (checkPNamespace_mismatch c _ _ _ _ _ Hown Hcl Hvn Hget Hne) in Hrun.
  unfold deleteEvents in Hrun. exists before, after. eexists.
  split; [exact Hrun|].
  destruct (NamespaceInterface.Delete _ _ _ _) as [e|]; eauto.
Qed.

End Claims.



Section Further.
Context {constants : Constants} {conversion : Conversion}.
Variable c : controller.

(** X1: a check deletes only what the scan found wrong: every delete is
    the delete of a namespace listed from the super master cache that has
    an owner, and whose tenant namespace was not found or has another UID
    than the delegated one.  Namespaces without owner and namespaces whose
    lookup failed otherwise are never deleted. *)
Theorem X1_deletes_are_justified h name opts :
  EvDelete name opts ∈ (checkNamespaces c h).1 →
  ∃ pNamespace clusterName vNamespace,
    pNamespace ∈ (NamespaceLister.List (nsLister c)).1 ∧
    Name pNamespace = name ∧
    GetVirtualOwner pNamespace = (clusterName, vNamespace) ∧
    clusterName ≠ "" ∧ vNamespace ≠ "" ∧
    let answer := MultiClusterController.Get (multiClusterNamespaceController c)
                    clusterName "" vNamespace in
    IsNotFound answer.2 = true ∨
    ∃ vNs, answer = (Some vNs, None) ∧ annotation pNamespace LabelUID ≠ UID vNs.
Proof.
  intros Hin.
  pose proof (checkNamespaces_justified_delete c h) as Hall.
  rewrite Forall_forall in Hall. exact (Hall _ Hin name opts eq_refl).
Qed.

(** X2: a check requeues only what the scan found missing: every requeue
    goes to one of the tenant clusters, for a namespace that this tenant
    lists and whose namespace in the super master cache was not found. *)
Theorem X2_requeues_are_justified h clusterName obj :
  EvRequeueObject clusterName obj ∈ (checkNamespaces c h).1 →
  clusterName ∈ MultiClusterController.GetClusterNames
                  (multiClusterNamespaceController c) ∧
  (∃ listObj namespaceList,
     MultiClusterController.List (multiClusterNamespaceController c) clusterName =
       (listObj, None) ∧
     listObj = Some namespaceList ∧ obj ∈ namespaceList) ∧
  IsNotFound (NamespaceLister.Get (nsLister c)
                (ToSuperMasterNamespace clusterName (Name obj))).2 = true.
Proof.
  intros Hin.
  pose proof (checkNamespaces_justified_requeue c h) as Hall.
  rewrite Forall_forall in Hall. exact (Hall _ Hin clusterName obj eq_refl).
Qed.

(** X3: in a check whose tenant scans return, also when the scan of the
    super master panics, every delete and every requeue is accounted for:
    the deletes are the increments of the counter of deleted orphans plus
    the logged delete failures, the requeues are the increments of the
    counter of requeued namespaces plus the logged requeue failures, and
    the check increments no other counter. *)
Theorem X3_mutations_are_accounted h :
  (checkTenantClusters c
     (MultiClusterController.GetClusterNames (multiClusterNamespaceController c))
     (h ++ [EvGetClusterNames])).2 = Ret tt →
  let evs := (checkNamespaces c h).1 in
  tally is_delete evs + CheckerRemedyStats "numDeletedOrphanSuperMasterNamespaces" h =
    CheckerRemedyStats "numDeletedOrphanSuperMasterNamespaces" (h ++ evs) +
    tally is_delete_err evs ∧
  tally is_requeue evs + CheckerRemedyStats "numRequeuedTenantNamespaces" h =
    CheckerRemedyStats "numRequeuedTenantNamespaces" (h ++ evs) +
    tally is_requeue_err evs ∧
  ∀ label,
    label ≠ "numDeletedOrphanSuperMasterNamespaces" →
    label ≠ "numRequeuedTenantNamespaces" →
    CheckerRemedyStats label (h ++ evs) = CheckerRemedyStats label h.
Proof.
  intros _ evs. destruct (checkNamespaces_accounted c h) as [Hd Hr].
  fold evs in Hd, Hr. unfold CheckerRemedyStats. rewrite !tally_app.
  split; [lia|]. split; [lia|].
  intros label Hl1 Hl2. rewrite tally_app, (tally_none _ evs); [lia|].
  eapply Forall_impl; [apply (checkNamespaces_checker_label c h)|].
  intros [] He; simpl; try done. apply bool_decide_eq_false_2.
  intros ->. by destruct (He _ eq_refl).
Qed.

(** X4: on a consistent state, where every tenant namespace has its
    namespace in the super master cache with the delegated UID and every
    owned namespace of the super master has its tenant namespace with that
    UID, a check returns and only reads: no decision, no warning or error
    log, no counter change. *)
Theorem X4_consistent_state_is_left_alone h :
  consistent c →
  let evs := (checkNamespaces c h).1 in
  (checkNamespaces c h).2 = Ret tt ∧
  Forall (λ e, quiet e = true) evs ∧
  decisions evs = [] ∧
  ∀ label, CheckerRemedyStats label (h ++ evs) = CheckerRemedyStats label h.
Proof.
  intros [Htenants Hsuper] evs.
  assert (emits (λ e, quiet e = true) (checkNamespaces c) ∧
          ∀ h', (checkNamespaces c h').2 = Ret tt) as [Hq Hr].
  { destruct (consistentSuper_quiet c Hsuper) as [Hsq Hsr].
    unfold checkNamespaces. split.
    - apply emits_read; [done|].
      destruct (_ =? _)%nat; [by apply emits_emit|].
      apply emits_bind.
      { apply emits_range. intros cl Hcl.
        by apply consistentTenant_quiet, Htenants. }
      intros _. apply emits_deferred; [by apply emits_emit|done].
    - intros h'. rewrite bind_snd. simpl.
      destruct (_ =? _)%nat; [done|].
      rewrite bind_snd.
      assert ((checkTenantClusters c
                 (MultiClusterController.GetClusterNames
                    (multiClusterNamespaceController c))
                 (h' ++ [EvGetClusterNames])).2 = Ret tt) as ->.
      { apply range_returns. intros cl h'' Hcl.
        by apply consistentTenant_quiet, Htenants. }
      by rewrite deferred_snd. }
  split; [apply Hr|]. split; [apply Hq|].
  split; [apply quiet_decisions, Hq|].
  intros label. unfold CheckerRemedyStats. rewrite tally_app.
  fold (CheckerRemedyStats label evs). rewrite (quiet_counter _ _ (Hq h)). lia.
Qed.

(** X5: the scan of a tenant whose namespaces are listed panics exactly
    when the super master cache answers one of the lookups with no
    namespace and no not-found error. *)
Theorem X5_tenant_scan_panics_on_nil_lookup clusterName namespaceList h :
  MultiClusterController.List (multiClusterNamespaceController c) clusterName =
    (Some namespaceList, None) →
  (checkNamespacesOfTenantCluster c clusterName h).2 = Panic ↔
  ∃ vNamespace, vNamespace ∈ namespaceList ∧ nilLookup c clusterName vNamespace.
Proof.
  intros Hlist. unfold checkNamespacesOfTenantCluster.
  rewrite bind_snd. simpl. rewrite Hlist.
  rewrite bind_snd. simpl. rewrite bind_snd. simpl.
  split.
  - intros (v & h' & Hin & Hp)%range_Panic_inv.
    exists v. split; [done|]. by eapply checkVNamespace_Panic_inv.
  - intros (v & Hin & Hnil). eapply range_panics; [done|].
    intros h'. by apply checkVNamespace_nilLookup.
Qed.

(** X6: with collaborators that give a value or an error, and a super
    master cache that fails only with not found, no check panics, and the
    checker, once the caches have synced, runs until the stop and returns
    no error. *)
Theorem X6_conventional_collaborators_never_panic h stopCh :
  conventional c →
  (checkNamespaces c h).2 = Ret tt ∧
  (syncedBeforeStop stopCh = true →
   (StartPeriodChecker c stopCh h).2 = Ret None).
Proof.
  intros (Hlist & Hcache & Hget).
  assert (∀ h', (checkNamespaces c h').2 = Ret tt) as Hcheck.
  { intros h'. unfold checkNamespaces. rewrite bind_snd. simpl.
    destruct (_ =? _)%nat; [done|].
    rewrite bind_snd.
    assert (∀ h'', (checkTenantClusters c
              (MultiClusterController.GetClusterNames
                 (multiClusterNamespaceController c)) h'').2 = Ret tt) as ->.
    { intros h''. apply range_returns. intros cl h3 _.
      unfold checkNamespacesOfTenantCluster. rewrite bind_snd. simpl.
      specialize (Hlist cl).
      destruct (MultiClusterController.List _ _) as [listObj [e|]]; [done|].
      simpl in Hlist. destruct (Hlist eq_refl) as [namespaceList ->].
      rewrite bind_snd. simpl. rewrite bind_snd. simpl.
      apply range_returns. intros v h4 _.
      destruct ((checkVNamespace c cl v h4).2) as [[]|] eqn:Hv; [done|].
      apply checkVNamespace_Panic_inv in Hv as [Hnf Hnil].
      specialize (Hcache (ToSuperMasterNamespace cl (Name v)) Hnf).
      rewrite Hnil in Hcache. by destruct Hcache. }
    rewrite deferred_snd by done.
    unfold checkPNamespaces. rewrite bind_snd. simpl.
    destruct (NamespaceLister.List (nsLister c)) as [pNamespaces [e|]]; [done|].
    apply range_returns. intros p h5 _. by apply checkPNamespace_returns. }
  split; [apply Hcheck|].
  intros Hsync. unfold StartPeriodChecker. rewrite Hsync. simpl.
  rewrite bind_snd. by rewrite Until_returns.
Qed.

(** X7: a tenant whose listing fails is skipped: its scan logs the error
    and returns, and the scans of the tenants take the decisions they
    take without it. *)
Theorem X7_failed_tenant_listing_is_skipped clusterName listObj e l1 l2 h h' :
  MultiClusterController.List (multiClusterNamespaceController c) clusterName =
    (listObj, Some e) →
  checkNamespacesOfTenantCluster c clusterName h =
    ([EvListVirtual clusterName; EvLog SevError (MsgListClusterErr clusterName e)],
     Ret tt) ∧
  decisions (checkTenantClusters c (l1 ++ clusterName :: l2) h).1 =
    decisions (checkTenantClusters c (l1 ++ l2) h').1 ∧
  (checkTenantClusters c (l1 ++ clusterName :: l2) h).2 =
    (checkTenantClusters c (l1 ++ l2) h').2.
Proof.
  intros Hlist.
  assert (∀ h0, checkNamespacesOfTenantCluster c clusterName h0 =
            ([EvListVirtual clusterName;
              EvLog SevError (MsgListClusterErr clusterName e)], Ret tt)) as Hscan.
  { intros h0. unfold checkNamespacesOfTenantCluster, bind, call.
    by rewrite Hlist. }
  split; [apply Hscan|].
  assert (same_decisions
            (checkTenantClusters c l1 ;; checkTenantClusters c (clusterName :: l2))
            (checkTenantClusters c l1 ;; checkTenantClusters c l2)) as Hsd.
  { apply sd_bind.
    - apply sd_range. intros cl.
      apply checkNamespacesOfTenantCluster_same_decisions, same_reads_refl.
    - intros _. apply sd_skip; [intros h0; by rewrite Hscan|].
      apply sd_range. intros cl.
      apply checkNamespacesOfTenantCluster_same_decisions, same_reads_refl. }
  specialize (Hsd h h'). unfold checkTenantClusters in *.
  by rewrite <- !range_app in Hsd.
Qed.

(** X8: when the listing of the super master cache fails after the
    tenants were scanned, the check logs the error, records the scan
    duration and returns: it looks up no owner and deletes nothing. *)
Theorem X8_failed_super_listing_ends_the_check pNamespaces e h et :
  let clusterNames := MultiClusterController.GetClusterNames
                        (multiClusterNamespaceController c) in
  clusterNames ≠ [] →
  NamespaceLister.List (nsLister c) = (pNamespaces, Some e) →
  checkTenantClusters c clusterNames (h ++ [EvGetClusterNames]) = (et, Ret tt) →
  checkNamespaces c h =
    ([EvGetClusterNames] ++ et ++
     [EvListSuper; EvLog SevError (MsgListSuperErr e);
      EvRecordCheckerScanDuration "namespace"], Ret tt) ∧
  tally is_delete (checkNamespaces c h).1 = 0.
Proof.
  intros clusterNames Hne Hlist Ht.
  assert (checkNamespaces c h =
    ([EvGetClusterNames] ++ et ++
     [EvListSuper; EvLog SevError (MsgListSuperErr e);
      EvRecordCheckerScanDuration "namespace"], Ret tt)) as Hrun.
  { subst clusterNames. unfold checkNamespaces, bind, call.
    destruct (MultiClusterController.GetClusterNames _) as [|cl cls]; [done|].
    simpl. rewrite Ht.
    unfold deferred, checkPNamespaces, bind, call. by rewrite Hlist. }
  split; [done|]. rewrite Hrun. simpl. rewrite tally_cons, tally_app. simpl.
  rewrite (tally_none _ et); [done|].
  eapply Forall_impl.
  { change et with (et, Ret ()).1. rewrite <- Ht.
    apply checkTenantClusters_not_delete. }
  intros [] He; simpl; try done. by destruct (He name opts).
Qed.

(** X9: a check over at least one tenant whose tenant scans return
    records the scan duration exactly once, as the last thing it does,
    also when the listing of the super master cache fails or the scan of
    it panics. *)
Theorem X9_scan_duration_is_recorded_last h :
  let clusterNames := MultiClusterController.GetClusterNames
                        (multiClusterNamespaceController c) in
  let tenants := checkTenantClusters c clusterNames (h ++ [EvGetClusterNames]) in
  clusterNames ≠ [] →
  tenants.2 = Ret tt →
  ∃ before,
    (checkNamespaces c h).1 = before ++ [EvRecordCheckerScanDuration "namespace"] ∧
    tally is_record before = 0.
Proof.
  intros clusterNames tenants Hne Hr.
  destruct (checkNamespaces_not_record_before c) as [Ht Hp].
  fold clusterNames in Ht. specialize (Ht (h ++ [EvGetClusterNames])).
  fold tenants in Ht.
  assert ((checkNamespaces c h).1 =
            [EvGetClusterNames] ++ tenants.1 ++
            (checkPNamespaces c ((h ++ [EvGetClusterNames]) ++ tenants.1)).1 ++
            [EvRecordCheckerScanDuration "namespace"]) as Hrun.
  { unfold checkNamespaces. rewrite bind_fst. simpl. fold clusterNames.
    assert ((length clusterNames =? 0)%nat = false) as ->
      by (by destruct clusterNames).
    rewrite bind_fst. fold tenants. rewrite Hr. by rewrite deferred_fst. }
  assert (tally is_record tenants.1 = 0) as Ht0
    by (apply tally_none, Ht).
  exists ([EvGetClusterNames] ++ tenants.1 ++
          (checkPNamespaces c ((h ++ [EvGetClusterNames]) ++ tenants.1)).1).
  split; [by rewrite Hrun, <- !(assoc_L (++))|].
  rewrite !tally_app, Ht0, (tally_none _ (checkPNamespaces _ _).1) by apply Hp.
  done.
Qed.

(** X10: a check that returns has requeued every namespace that a tenant
    lists and that is not found in the super master cache. *)
Theorem X10_missing_namespaces_are_requeued h clusterName namespaceList vNamespace :
  (checkNamespaces c h).2 = Ret tt →
  clusterName ∈ MultiClusterController.GetClusterNames
                  (multiClusterNamespaceController c) →
  MultiClusterController.List (multiClusterNamespaceController c) clusterName =
    (Some namespaceList, None) →
  vNamespace ∈ namespaceList →
  IsNotFound (NamespaceLister.Get (nsLister c)
                (ToSuperMasterNamespace clusterName (Name vNamespace))).2 = true →
  EvRequeueObject clusterName vNamespace ∈ (checkNamespaces c h).1.
Proof.
  intros Hret Hcl Hlist Hv Hnf.
  destruct (checkNamespaces c h) as [evs r] eqn:Hrun. simpl in *. subst r.
  unfold checkNamespaces in Hrun.
  apply bind_Ret_inv in Hrun as (e0 & clusterNames & e1 & Hcall & Hrun & ->).
  injection Hcall as <- <-.
  destruct (MultiClusterController.GetClusterNames _) as [|cl cls] eqn:Hnames;
    [by apply elem_of_nil in Hcl|].
  simpl in Hrun.
  apply bind_Ret_inv in Hrun as (et & [] & eo & Ht & _ & ->).
  apply elem_of_app. right. apply elem_of_app. left.
  destruct (range_Ret_elem _ _ _ _ _ Ht Hcl) as (h' & ex & Hscan & Hsub).
  apply Hsub. unfold checkNamespacesOfTenantCluster in Hscan.
  apply bind_Ret_inv in Hscan as (el & lst & es & Hl & Hs & ->).
  injection Hl as <- <-. rewrite Hlist in Hs.
  apply bind_Ret_inv in Hs as (elog & [] & es' & _ & Hs & ->).
  apply bind_Ret_inv in Hs as (enil & items & er & Hd & Hs & ->).
  injection Hd as <- <-.
  do 3 (apply elem_of_app; right).
  eapply range_Ret_emits; [done..|]. intros h''.
  destruct (NamespaceLister.Get (nsLister c)
              (ToSuperMasterNamespace clusterName (Name vNamespace)))
    as [p err] eqn:Hget.
  rewrite (checkVNamespace_not_found c _ _ h'' _ _ Hget Hnf).
  right. left.
Qed.

(** X11: a check over at least one tenant that returns has issued the
    delete of every owned namespace listed from the super master cache
    whose tenant namespace is not found or has another UID than the
    delegated one. *)
Theorem X11_orphans_and_stale_namespaces_are_deleted
    h pNamespaces pNamespace clusterName vNamespace :
  (checkNamespaces c h).2 = Ret tt →
  MultiClusterController.GetClusterNames (multiClusterNamespaceController c) ≠ [] →
  NamespaceLister.List (nsLister c) = (pNamespaces, None) →
  pNamespace ∈ pNamespaces →
  GetVirtualOwner pNamespace = (clusterName, vNamespace) →
  clusterName ≠ "" → vNamespace ≠ "" →
  (let answer := MultiClusterController.Get (multiClusterNamespaceController c)
                   clusterName "" vNamespace in
   IsNotFound answer.2 = true ∨
   ∃ vNs, answer = (Some vNs, None) ∧ annotation pNamespace LabelUID ≠ UID vNs) →
  EvDelete (Name pNamespace) (deleteOptions pNamespace) ∈ (checkNamespaces c h).1.
Proof.
  intros Hret Hnames Hlist Hin Hown Hcl Hvn Hwhy.
  destruct (checkNamespaces c h) as [evs r] eqn:Hrun. simpl in *. subst r.
  unfold checkNamespaces in Hrun.
  apply bind_Ret_inv in Hrun as (e0 & clusterNames & e1 & Hcall & Hrun & ->).
  injection Hcall as <- <-.
  destruct (MultiClusterController.GetClusterNames _) as [|cl cls]; [done|].
  simpl in Hrun.
  apply bind_Ret_inv in Hrun as (et & [] & eo & _ & Ho & ->).
  apply deferred_Ret_inv in Ho as (ep & er & Hp & _ & ->).
  unfold checkPNamespaces in Hp.
  apply bind_Ret_inv in Hp as (el & lst & es & Hl & Hs & ->).
  injection Hl as <- <-. rewrite Hlist in Hs.
  do 2 (apply elem_of_app; right). apply elem_of_app; left.
  apply elem_of_app; right.
  eapply range_Ret_emits; [done..|]. intros h'.
  destruct Hwhy as [Hnf|(vNs & Hget & Hne)].
  - destruct (MultiClusterController.Get _ _ _ _) as [vObj err] eqn:Hget.
    rewrite (checkPNamespace_not_found c _ h' _ _ _ _ Hown Hcl Hvn Hget Hnf).
    right. left.
  - rewrite (checkPNamespace_mismatch c _ h' _ _ _ Hown Hcl Hvn Hget Hne).
    do 2 right. left.
Qed.

(** X12: a check deletes a name at most as often as the super master
    cache lists it: a failed delete is not tried again, and nothing but
    the scan of the super master deletes. *)
Theorem X12_deletes_at_most_once_per_listing h name :
  (tally (is_delete_of name) (checkNamespaces c h).1
   ≤ length (filter (λ p, Name p = name) (NamespaceLister.List (nsLister c)).1))%nat.
Proof.
  assert (∀ e, is_delete_of name e = false → tally (is_delete_of name) [e] = 0)
    as Hone by (intros e He; apply tally_none; by each_event).
  unfold checkNamespaces. rewrite bind_fst, tally_app.
  cbn [fst snd call]. rewrite Hone by done.
  destruct (_ =? _)%nat.
  { unfold klog. cbn [fst emit]. rewrite Hone by done. lia. }
  rewrite bind_fst, tally_app, checkTenantClusters_tally_delete.
  destruct (checkTenantClusters _ _ _).2; [|rewrite tally_nil; lia].
  rewrite deferred_fst, tally_app. cbn [fst emit].
  rewrite Hone by done.
  unfold checkPNamespaces. rewrite bind_fst, tally_app.
  cbn [fst snd call]. rewrite Hone by done.
  destruct (NamespaceLister.List (nsLister c)) as [pNamespaces [e|]].
  - unfold klog. cbn [fst emit]. rewrite Hone by done. lia.
  - match goal with
    | |- context [range pNamespaces _ ?h0] =>
        pose proof (tally_range_filter (is_delete_of name) (λ p, Name p = name)
                      pNamespaces (checkPNamespace c) h0
                      (λ p h', checkPNamespace_deletes_once c p name h')) as Hle
    end.
    cbn [fst] in *. lia.
Qed.

(** X13: however the tenant goroutines interleave, and whatever each of
    them finds done before it, together they take the decisions of the
    scans run one after the other, in another order at most. *)
Theorem X13_goroutine_order_is_irrelevant clusterNames hs evs h :
  length hs = length clusterNames →
  interleaving (tenantTraces c clusterNames hs) evs →
  (checkTenantClusters c clusterNames h).2 = Ret tt →
  decisions evs ≡ₚ decisions (checkTenantClusters c clusterNames h).1.
Proof.
  intros Hlen Hint Hret.
  destruct (checkTenantClusters c clusterNames h) as [evs' r] eqn:Hrun.
  simpl in *. subst r.
  rewrite (checkTenantClusters_decisions _ _ _ _ Hrun).
  rewrite <- (tenantTraces_decisions _ _ hs Hlen).
  unfold decisions. by rewrite (interleaving_Permutation _ _ Hint).
Qed.

End Further.

(** ** The properties on the scenarios *)

(** Membership in an evaluated trace. *)
Ltac in_trace :=
  vm_compute;
  repeat first [apply list_elem_of_here | apply list_elem_of_further].

Section OnScenarios.
Import Scenario.
Local Existing Instances syncerConstants syncerConversion.

(** C2: tenant [t1] has [ns1] and [ns2], and the super master cache fails
    on the lookup of [t1-ns1] with an error other than not found.  The scan
    of [t1] logs the error, then dereferences the nil namespace: it panics
    before [ns2], which is missing from the super master, is looked up or
    requeued. *)
Theorem C2_lookup_error_ends_in_nil_dereference :
  IsNotFound (NamespaceLister.Get (nsLister cacheFails) "t1-ns1").2 = false ∧
  checkNamespacesOfTenantCluster cacheFails "t1" [] =
    ([EvListVirtual "t1"; EvLog (SevInfoV 4) (MsgCheckCluster "t1");
      EvGetSuper "t1-ns1";
      EvLog SevError (MsgGetSuperErr "t1-ns1" internalError)], Panic) ∧
  checkNamespaces cacheFails [] =
    ([EvGetClusterNames;
      EvListVirtual "t1"; EvLog (SevInfoV 4) (MsgCheckCluster "t1");
      EvGetSuper "t1-ns1";
      EvLog SevError (MsgGetSuperErr "t1-ns1" internalError)], Panic).
Proof. by vm_compute. Qed.

Lemma C1_counterexample : ¬ deletePreconditionIsDelegatedUID (orphan None) [].
Proof.
  intros Hclaim.
  destruct (Hclaim "t1-ns1" (deleteOptions t1ns1)) as (p & Hp & _ & Hpre).
  - in_trace.
  - apply list_elem_of_singleton in Hp as ->. by vm_compute in Hpre.
Qed.

Lemma C1_witness :
  EvDelete "t1-ns1" (deleteOptions t1ns1) ∈ (checkNamespaces (orphan None) []).1 ∧
  ∃ pNamespace,
    pNamespace ∈ [t1ns1] ∧
    Name pNamespace = "t1-ns1" ∧
    PropagationPolicy (deleteOptions t1ns1) = Some "Background" ∧
    DeletePreconditions (deleteOptions t1ns1) =
      Some (NewUIDPreconditions (UID pNamespace)).
Proof.
  assert (EvDelete "t1-ns1" (deleteOptions t1ns1)
            ∈ (checkNamespaces (orphan None) []).1) as Hin.
  { in_trace. }
  split; [exact Hin|].
  exact (C1_delete_precondition_is_own_UID (orphan None) [] _ _ Hin).
Defined.



Lemma C5_counterexample :
  ¬ mismatchIsDeletedOnce staleNoTenants [] ∧
  ¬ mismatchIsDeletedOnce staleListErr [] ∧
  ¬ mismatchIsDeletedOnce staleTwice [].
Proof.
  assert (annotation t1ns1 LabelUID ≠ UID (vNs "ns1" "u2")) as Hne
    by (vm_compute; discriminate).
  repeat split; intros Hclaim;
    specialize (Hclaim t1ns1 (vNs "ns1" "u2") "t1" "ns1"
                  ltac:(apply list_elem_of_here) eq_refl
                  ltac:(discriminate) ltac:(discriminate) eq_refl Hne);
    vm_compute in Hclaim; discriminate.
Qed.

Lemma C5_witness :
  (checkNamespaces stale []).2 = Ret tt ∧
  annotation t1ns1 LabelUID ≠ UID (vNs "ns1" "u2") ∧
  tally (is_delete_of "t1-ns1") (checkNamespaces stale []).1 = 1 ∧
  (∀ clusterNames, emits not_delete (checkTenantClusters stale clusterNames)) ∧
  ∃ before after sev,
    (checkNamespaces stale []).1 =
      before ++
      [EvGetSuper "t1-ns1"; EvLog sev (MsgDelegatedUIDDiffers "t1-ns1")] ++ after ∧
    checkVNamespace stale "t1" (vNs "ns1" "u2") ([] ++ before) =
      ([EvGetSuper "t1-ns1"; EvLog sev (MsgDelegatedUIDDiffers "t1-ns1")], Ret tt).
Proof.
  assert (annotation t1ns1 LabelUID ≠ UID (vNs "ns1" "u2")) as Hne
    by (vm_compute; discriminate).
  split; [reflexivity|]. split; [exact Hne|].
  destruct (C5_mismatch_is_deleted_once stale t1ns1 (vNs "ns1" "u2") []
              "t1" "ns1" [t1ns1]) as (Hone & Htenant & Hbranch).
  - discriminate.
  - reflexivity.
  - apply NoDup_singleton.
  - apply list_elem_of_here.
  - reflexivity.
  - discriminate.
  - discriminate.
  - reflexivity.
  - exact Hne.
  - reflexivity.
  - split; [exact Hone|]. split; [exact Htenant|].
    apply (Hbranch "t1" [vNs "ns1" "u2"] (vNs "ns1" "u2") t1ns1).
    + apply list_elem_of_here.
    + reflexivity.
    + apply list_elem_of_here.
    + reflexivity.
    + exact Hne.
Defined.

(** C6: the super master has [t1-ns1], owned by [ns1] of [t1], and the
    lookup of that tenant namespace fails with an error other than not
    found.  The check issues no delete and goes on to its end, but it logs
    nothing about the failed lookup: after the lookup nothing is added to
    the trace but the record of the scan duration. *)
Theorem C6_lookup_error_is_dropped_without_log :
  MultiClusterController.Get (multiClusterNamespaceController tenantFails)
    "t1" "" "ns1" = (None, Some internalError) ∧
  IsNotFound (Some internalError) = false ∧
  checkNamespaces tenantFails [] =
    ([EvGetClusterNames;
      EvListVirtual "t1"; EvLog (SevInfoV 4) (MsgCheckCluster "t1");
      EvListSuper; EvGetVirtual "t1" "" "ns1";
      EvRecordCheckerScanDuration "namespace"], Ret tt).
Proof. by vm_compute. Qed.

Lemma C7_witness :
  MultiClusterController.GetClusterNames (multiClusterNamespaceController noTenants) = [] ∧
  checkNamespaces noTenants [] =
    ([EvGetClusterNames; EvLog SevInfo MsgNoClusters], Ret tt).
Proof.
  split; [reflexivity|].
  apply (C7_no_clusters_no_check noTenants []). reflexivity.
Defined.

Lemma C8_witness :
  (∃ e, StartPeriodChecker stale stopFirst [] = ([], Ret (Some e))) ∧
  (StartPeriodChecker stale stopLater []).2 = Ret None.
Proof.
  split.
  - apply (C8_start_waits_for_sync stale stopFirst []). reflexivity.
  - apply (C8_start_waits_for_sync stale stopLater []); reflexivity.
Defined.


Lemma C10_witness :
  (checkNamespaces undelegated []).2 = Ret tt ∧
  Annotations t1ns1' !! LabelUID = None ∧
  ∃ before after outcome,
    (checkNamespaces undelegated []).1 =
      before ++
      [EvGetVirtual "t1" "" "ns1";
       EvLog SevWarning (MsgDelegatedUIDDiffers "t1-ns1");
       EvDelete "t1-ns1" (deleteOptions t1ns1');
       outcome] ++ after ∧
    (outcome = EvCounterInc "numDeletedOrphanSuperMasterNamespaces" ∨
     ∃ e, outcome = EvLog SevError (MsgDeleteErr "t1-ns1" e)).
Proof.
  split; [reflexivity|]. split; [reflexivity|].
  apply (C10_no_delegated_UID_is_mismatch undelegated [t1ns1'] t1ns1' [] "t1" "ns1"
           (vNs "ns1" "u2")).
  - reflexivity.
  - discriminate.
  - reflexivity.
  - apply list_elem_of_here.
  - reflexivity.
  - discriminate.
  - discriminate.
  - left. reflexivity.
  - reflexivity.
  - discriminate.
Defined.

End OnScenarios.

(** ** The further properties on the scenarios *)

Section FurtherOnScenarios.
Import Scenario.
Local Existing Instances syncerConstants syncerConversion.

Lemma X1_witness :
  EvDelete "t1-ns1" (deleteOptions t1ns1) ∈ (checkNamespaces (orphan None) []).1 ∧
  ∃ pNamespace clusterName vNamespace,
    pNamespace ∈ [t1ns1] ∧
    Name pNamespace = "t1-ns1" ∧
    GetVirtualOwner pNamespace = (clusterName, vNamespace) ∧
    clusterName ≠ "" ∧ vNamespace ≠ "" ∧
    let answer := MultiClusterController.Get
                    (multiClusterNamespaceController (orphan None))
                    clusterName "" vNamespace in
    IsNotFound answer.2 = true ∨
    ∃ vNs, answer = (Some vNs, None) ∧ annotation pNamespace LabelUID ≠ UID vNs.
Proof.
  assert (EvDelete "t1-ns1" (deleteOptions t1ns1)
            ∈ (checkNamespaces (orphan None) []).1) as Hin by in_trace.
  split; [exact Hin|].
  exact (X1_deletes_are_justified (orphan None) [] _ _ Hin).
Defined.

Lemma X2_witness :
  EvRequeueObject "t1" (vNs "ns1" "u1") ∈ (checkNamespaces (missing None) []).1 ∧
  "t1" ∈ ["t1"] ∧
  (∃ listObj namespaceList,
     MultiClusterController.List (multiClusterNamespaceController (missing None)) "t1" =
       (listObj, None) ∧
     listObj = Some namespaceList ∧ vNs "ns1" "u1" ∈ namespaceList) ∧
  IsNotFound (NamespaceLister.Get (nsLister (missing None)) "t1-ns1").2 = true.
Proof.
  assert (EvRequeueObject "t1" (vNs "ns1" "u1")
            ∈ (checkNamespaces (missing None) []).1) as Hin by in_trace.
  split; [exact Hin|].
  exact (X2_requeues_are_justified (missing None) [] _ _ Hin).
Defined.

Lemma X3_witness :
  let evs := (checkNamespaces (orphan (Some internalError)) []).1 in
  tally is_delete evs = 1 ∧ tally is_delete_err evs = 1 ∧
  tally is_delete evs +
    CheckerRemedyStats "numDeletedOrphanSuperMasterNamespaces" [] =
    CheckerRemedyStats "numDeletedOrphanSuperMasterNamespaces" ([] ++ evs) +
    tally is_delete_err evs.
Proof.
  split; [reflexivity|]. split; [reflexivity|].
  apply (X3_mutations_are_accounted (orphan (Some internalError)) []).
  reflexivity.
Defined.

Lemma inSync_consistent : consistent inSync.
Proof.
  split.
  - intros cl ->%list_elem_of_singleton. exists [vNs "ns1" "u1"].
    split; [reflexivity|].
    intros v ->%list_elem_of_singleton. by exists t1ns1.
  - exists [t1ns1]. split; [reflexivity|].
    intros p ->%list_elem_of_singleton. do 2 right.
    by exists (vNs "ns1" "u1").
Defined.

Lemma X4_witness :
  consistent inSync ∧
  (checkNamespaces inSync []).2 = Ret tt ∧
  decisions (checkNamespaces inSync []).1 = [].
Proof.
  split; [exact inSync_consistent|].
  destruct (X4_consistent_state_is_left_alone inSync [] inSync_consistent)
    as (Hret & _ & Hdec & _).
  split; [exact Hret|exact Hdec].
Defined.

Lemma X5_witness :
  (checkNamespacesOfTenantCluster cacheFails "t1" []).2 = Panic ↔
  ∃ vNamespace,
    vNamespace ∈ [vNs "ns1" "u1"; vNs "ns2" "u2"] ∧
    nilLookup cacheFails "t1" vNamespace.
Proof.
  exact (X5_tenant_scan_panics_on_nil_lookup cacheFails "t1"
           [vNs "ns1" "u1"; vNs "ns2" "u2"] [] eq_refl).
Defined.

Lemma stale_conventional : conventional stale.
Proof.
  split; [|split].
  - intros cl. simpl. intros _. by eexists.
  - intros name. simpl. unfold getByName.
    destruct (find _ _); simpl; intros Hnf; [by eexists|].
    vm_compute in Hnf. discriminate.
  - intros cl ns name. simpl. unfold getByName.
    destruct (find _ _); simpl; intros Hnil; [by eexists|discriminate].
Defined.

Lemma X6_witness :
  conventional stale ∧
  (checkNamespaces stale []).2 = Ret tt ∧
  (StartPeriodChecker stale stopLater []).2 = Ret None.
Proof.
  split; [exact stale_conventional|].
  destruct (X6_conventional_collaborators_never_panic stale [] stopLater
              stale_conventional) as [Hcheck Hstart].
  split; [exact Hcheck|exact (Hstart eq_refl)].
Defined.

Lemma X7_witness :
  checkNamespacesOfTenantCluster listFails "t2" [] =
    ([EvListVirtual "t2"; EvLog SevError (MsgListClusterErr "t2" internalError)],
     Ret tt) ∧
  decisions (checkTenantClusters listFails (["t1"] ++ "t2" :: []) []).1 =
    decisions (checkTenantClusters listFails (["t1"] ++ []) []).1 ∧
  (checkTenantClusters listFails (["t1"] ++ "t2" :: []) []).2 =
    (checkTenantClusters listFails (["t1"] ++ []) []).2.
Proof.
  exact (X7_failed_tenant_listing_is_skipped listFails "t2" None internalError
           ["t1"] [] [] [] eq_refl).
Defined.

Lemma X8_witness :
  checkNamespaces superListFails [] =
    ([EvGetClusterNames] ++
     [EvListVirtual "t1"; EvLog (SevInfoV 4) (MsgCheckCluster "t1")] ++
     [EvListSuper; EvLog SevError (MsgListSuperErr internalError);
      EvRecordCheckerScanDuration "namespace"], Ret tt) ∧
  tally is_delete (checkNamespaces superListFails []).1 = 0.
Proof.
  apply (X8_failed_super_listing_ends_the_check superListFails [] internalError []).
  - discriminate.
  - reflexivity.
  - reflexivity.
Defined.

Lemma X9_witness :
  ∃ before,
    (checkNamespaces (orphan None) []).1 =
      before ++ [EvRecordCheckerScanDuration "namespace"] ∧
    tally is_record before = 0.
Proof.
  apply (X9_scan_duration_is_recorded_last (orphan None) []).
  - discriminate.
  - reflexivity.
Defined.

Lemma X10_witness :
  (checkNamespaces (missing None) []).2 = Ret tt ∧
  EvRequeueObject "t1" (vNs "ns1" "u1") ∈ (checkNamespaces (missing None) []).1.
Proof.
  split; [reflexivity|].
  apply (X10_missing_namespaces_are_requeued (missing None) [] "t1"
           [vNs "ns1" "u1"] (vNs "ns1" "u1")).
  - reflexivity.
  - apply list_elem_of_here.
  - reflexivity.
  - apply list_elem_of_here.
  - reflexivity.
Defined.

Lemma X11_witness :
  (checkNamespaces stale []).2 = Ret tt ∧
  EvDelete "t1-ns1" (deleteOptions t1ns1) ∈ (checkNamespaces stale []).1.
Proof.
  split; [reflexivity|].
  apply (X11_orphans_and_stale_namespaces_are_deleted stale [] [t1ns1] t1ns1
           "t1" "ns1").
  - reflexivity.
  - discriminate.
  - reflexivity.
  - apply list_elem_of_here.
  - reflexivity.
  - discriminate.
  - discriminate.
  - right. exists (vNs "ns1" "u2"). split; [reflexivity|].
    vm_compute. discriminate.
Defined.

Lemma X13_witness :
  interleaving (tenantTraces twoTenants ["t1"; "t2"] [[]; []]) turns ∧
  decisions turns ≡ₚ
    decisions (checkTenantClusters twoTenants ["t1"; "t2"] []).1.
Proof.
  assert (interleaving (tenantTraces twoTenants ["t1"; "t2"] [[]; []]) turns)
    as Hint.
  { vm_compute.
    do 5 (apply (interleaving_step []); apply (interleaving_step [_])).
    apply interleaving_done. by repeat constructor. }
  split; [exact Hint|].
  apply (X13_goroutine_order_is_irrelevant twoTenants ["t1"; "t2"] [[]; []]
           turns [] eq_refl Hint).
  reflexivity.
Defined.

End FurtherOnScenarios.
